(** * Gene target explorer: the bounded fetch pipeline of [app.py]

    A shallow embedding of the Streamlit script [app.py]: the memoised target
    lookup [get_targets], the per-target aggregation [fetch_drugs], the
    "Analyze" button handler with its merge loop, and the cache-management
    block that ends the script.

    Modelling conventions.
    - The ChEMBL client is an external collaborator: [Remote] holds, for each
      query the script makes, the complete answer of the remote source or the
      exception it raises.  The slices the script applies ([[:n]]) are taken
      on our side with [firstn].
    - A Python [float] is represented by the value it denotes.  Every finite
      binary64 number is an integer multiple of 2^-1074, so a finite float is
      the integer count of such units; [<=] and [<] on floats are then the
      exact comparisons of the language.  Infinities and NaN are kept, since
      [float(...)] may produce them.
    - [float(...)] itself (parsing and rounding), the formatting of a float
      and the arrangement pandas gives to rows of equal key are behaviour of
      the language and its libraries that the script does not fix: they are
      parameters ([Builtins]).
    - A key of a remote record read with [.get(key, default)] is a [field]:
      missing from the record, present with the value null, or present with
      a value.  [.get] substitutes its default for a missing key only.
    - [st.error], [st.warning], [st.info] and [st.write] append to a list of
      user-interface events. *)

From Stdlib Require Import ZArith List String Ascii Bool Lia.
From Stdlib Require Import Permutation Sorted DecimalString.
Import ListNotations.
Local Open Scope string_scope.
Local Open Scope list_scope.

(** ** Constants (lines 10-13) *)

Definition MAX_DRUGS : nat := 75.
Definition TARGET_LIMIT : nat := 3.
Definition WORKERS : nat := 2.
Definition CACHE_SIZE : nat := 2.

(** ** Python floats *)

Inductive pyfloat : Type :=
| NaN
| NegInf
| Fin (units : Z)
| PosInf.

(** [of_int n] is the float denoting the integer [n]. *)
Definition of_int (n : Z) : pyfloat := Fin (Z.shiftl n 1074).

(** Python's [a <= b] on floats. *)
Definition float_le (a b : pyfloat) : bool :=
  match a, b with
  | NaN, _ => false
  | _, NaN => false
  | NegInf, _ => true
  | Fin _, NegInf => false
  | Fin x, Fin y => (x <=? y)%Z
  | Fin _, PosInf => true
  | PosInf, PosInf => true
  | PosInf, _ => false
  end.

(** Python's [a < b] on floats. *)
Definition float_lt (a b : pyfloat) : bool :=
  match a, b with
  | NaN, _ => false
  | _, NaN => false
  | NegInf, NegInf => false
  | NegInf, _ => true
  | Fin x, Fin y => (x <? y)%Z
  | Fin _, PosInf => true
  | _, _ => false
  end.

(** Rounding of an exact value, given in units, to the nearest binary64
    number, ties to even: values below 2^53 units are exact; above, the
    value is rounded to 53 significant bits and overflows to an infinity
    from 2^2098 units (2^1024) on. *)
Definition round_units (z : Z) : pyfloat :=
  let m := Z.abs z in
  let e := (Z.log2 m - 52)%Z in
  if (e <=? 0)%Z then Fin z
  else
    let q := Z.shiftr m e in
    let r := (m - Z.shiftl q e)%Z in
    let half := Z.shiftl 1 (e - 1) in
    let q' := if orb (half <? r)%Z (andb (r =? half)%Z (Z.odd q))
              then (q + 1)%Z else q in
    let m' := Z.shiftl q' e in
    if (Z.shiftl 1 2098 <=? m')%Z
    then (if (z <? 0)%Z then NegInf else PosInf)
    else Fin (Z.sgn z * m').

(** Whether a number of units is a binary64 number. *)
Definition exact_float (z : Z) : bool :=
  let m := Z.abs z in
  let e := (Z.log2 m - 52)%Z in
  orb (e <=? 0)%Z
      (andb (m mod 2 ^ e =? 0)%Z (m <? Z.shiftl 1 2098)%Z).

(** Python's [a - b] on floats: the exact difference, rounded. *)
Definition float_sub (a b : pyfloat) : pyfloat :=
  match a, b with
  | NaN, _ => NaN
  | _, NaN => NaN
  | Fin x, Fin y => round_units (x - y)
  | Fin _, PosInf => NegInf
  | Fin _, NegInf => PosInf
  | PosInf, PosInf => NaN
  | PosInf, _ => PosInf
  | NegInf, NegInf => NaN
  | NegInf, _ => NegInf
  end.

Definition is_nan (a : pyfloat) : bool :=
  match a with NaN => true | _ => false end.

(** ** Exceptions *)

Inductive result (A : Type) : Type :=
| Ok (a : A)
| Raise (msg : string).
Arguments Ok {A} a.
Arguments Raise {A} msg.

Definition bind {A B : Type} (r : result A) (k : A -> result B) : result B :=
  match r with
  | Ok a => k a
  | Raise e => Raise e
  end.

Notation "x <- c ;; k" := (bind c (fun x => k))
  (at level 61, c at next level, right associativity).

(** ** Data model *)

(** One key of a dictionary decoded from the remote source. *)
Inductive field (A : Type) : Type :=
| Missing
| Null
| Present (a : A).
Arguments Missing {A}.
Arguments Null {A}.
Arguments Present {A} a.

(** [d.get(key, default)]: [None] is Python's [None]. *)
Definition dict_get {A : Type} (f : field A) (default : A) : option A :=
  match f with
  | Missing => Some default
  | Null => None
  | Present a => Some a
  end.

(** A target as returned by [new_client.target] with
    [.only('target_chembl_id', 'pref_name')]. *)
Record target : Type := mk_target {
  target_chembl_id : string;
  target_pref_name : field string
}.

(** A mechanism, [.only('molecule_chembl_id', 'mechanism_of_action')]. *)
Record mechanism : Type := mk_mechanism {
  molecule_chembl_id : string;
  mechanism_of_action : option string
}.

(** A molecule record; name and phase are read with [.get]. *)
Record molecule : Type := mk_molecule {
  pref_name : field string;
  max_phase : field pyfloat
}.

(** An activity, [.only('standard_value', 'standard_units')]; the value is
    the string of the remote source, or null. *)
Record activity : Type := mk_activity {
  standard_value : option string;
  standard_units : option string
}.

(** The ['Phase'] cell of a row: a number, the literal ['Unknown'], or
    [None]. *)
Inductive phase_cell : Type :=
| PhaseNum (p : pyfloat)
| PhaseStr (s : string)
| PhaseNone.

(** One dictionary appended to [drugs] (lines 74-79). *)
Record row : Type := mk_row {
  Drug : option string;
  IC50 : pyfloat;
  Phase : phase_cell;
  Target : option string
}.

(** The remote source: each query answers with its full result list, or
    raises. *)
Record Remote : Type := mk_remote {
  target_by_synonym : string -> result (list target);
  target_by_pref_name : string -> result (list target);
  mechanism_by_target : string -> result (list mechanism);
  molecule_get : string -> result molecule;
  activity_filter : string -> string -> result (list activity)
}.

(** Behaviour of the language and of pandas the script relies on.
    [sort_ties l] is the rearrangement the sort of pandas makes of the rows
    [l] apart from ordering them by key, as a sequence of positions at which
    two neighbouring rows are exchanged: its default sort kind leaves the
    order of rows with equal keys unspecified. *)
Record Builtins : Type := mk_builtins {
  py_float : string -> result pyfloat;
  py_str_float : pyfloat -> string;
  sort_ties : list row -> list nat
}.

(** User-interface events. *)
Inductive ui_event : Type :=
| st_error (msg : string)
| st_warning (msg : string)
| st_info (msg : string)
| st_write (msg : string)
| st_markdown (msg : string).

(** ** Strings *)

Definition upper_ascii (c : ascii) : ascii :=
  let n := nat_of_ascii c in
  if andb (Nat.leb 97 n) (Nat.leb n 122) then ascii_of_nat (n - 32) else c.

(** [s.upper()] for a gene symbol written in ASCII: the letters a-z are
    raised, every other byte is left as it is.  For a symbol with letters
    outside ASCII this is not what Python computes. *)
Fixpoint upper (s : string) : string :=
  match s with
  | EmptyString => EmptyString
  | String c s' => String (upper_ascii c) (upper s')
  end.

(** [s[:n]]. *)
Definition str_take (n : nat) (s : string) : string := substring 0 n s.

(** [str(n)] for a non-negative integer. *)
Definition str_nat (n : nat) : string :=
  NilZero.string_of_uint (Nat.to_uint n).

(** Truth value of an optional string: null and the empty string are false. *)
Definition truthy (v : option string) : bool :=
  match v with
  | Some s => negb (String.eqb s "")
  | None => false
  end.

Definition opt_str_eqb (v : option string) (s : string) : bool :=
  match v with
  | Some s' => String.eqb s' s
  | None => false
  end.

(** ** The drug aggregator: [fetch_drugs] (lines 47-88) *)

Section Aggregator.

Variable py : Builtins.
Variable remote : Remote.

(** The row built at lines 74-79. *)
Definition make_row (tgt : target) (mech : mechanism) (drug : molecule)
    (ic50 : pyfloat) : row :=
  {| Drug := dict_get (pref_name drug)
               ("Unknown_" ++ str_take 4 (molecule_chembl_id mech))%string;
     IC50 := ic50;
     Phase := match max_phase drug with
              | Missing => PhaseStr "Unknown"
              | Null => PhaseNone
              | Present p => PhaseNum p
              end;
     Target := dict_get (target_pref_name tgt) (target_chembl_id tgt) |}.

(** The body of the inner [try] (lines 57-79) for one mechanism: the row
    it appends, if any, or the exception the inner handler catches. *)
Definition process_mech (tgt : target) (threshold : pyfloat)
    (mech : mechanism) : result (option row) :=
  drug <- molecule_get remote (molecule_chembl_id mech) ;;
  all <- activity_filter remote (molecule_chembl_id mech)
           (target_chembl_id tgt) ;;
  match firstn 1 all with
  | a :: _ =>
      if andb (opt_str_eqb (standard_units a) "nM")
              (truthy (standard_value a))
      then
        match standard_value a with
        | Some v =>
            ic50 <- py_float py v ;;
            if float_le ic50 threshold
            then Ok (Some (make_row tgt mech drug ic50))
            else Ok None
        | None => Ok None
        end
      else Ok None
  | [] => Ok None
  end.

(** The [for] loop of lines 55-83, threading [drugs] and the events. *)
Fixpoint drugs_loop (tgt : target) (threshold : pyfloat)
    (mechs : list mechanism) (drugs : list row) (log : list ui_event)
    : list row * list ui_event :=
  match mechs with
  | [] => (drugs, log)
  | mech :: rest =>
      match process_mech tgt threshold mech with
      | Ok (Some r) => drugs_loop tgt threshold rest (drugs ++ [r]) log
      | Ok None => drugs_loop tgt threshold rest drugs log
      | Raise e =>
          drugs_loop tgt threshold rest drugs
            (log ++ [st_warning ("Skipped drug " ++ molecule_chembl_id mech
                                 ++ ": " ++ e)%string])
      end
  end.

(** Lines 51-53: the mechanism list the aggregator works from. *)
Definition fetch_mechs (tgt : target) : result (list mechanism) :=
  all <- mechanism_by_target remote (target_chembl_id tgt) ;;
  Ok (firstn (MAX_DRUGS * 2) all).

(** Line 55: the mechanisms the loop visits. *)
Definition selected_mechs (mechs : list mechanism) : list mechanism :=
  firstn (MAX_DRUGS / TARGET_LIMIT) mechs.

Definition fetch_drugs (tgt : target) (threshold : pyfloat)
    : list row * list ui_event :=
  match fetch_mechs tgt with
  | Ok mechs => drugs_loop tgt threshold (selected_mechs mechs) [] []
  | Raise e =>
      ([], [st_error ("Mechanism API error for " ++ target_chembl_id tgt
                      ++ ": " ++ e)%string])
  end.

End Aggregator.

(** ** The result store: [st.session_state.results] *)

(** The dictionary of lines 17-23.  The key ['api_errors'] is the only one
    that some stored dictionaries lack (lines 134-139), so it is optional. *)
Record session_results : Type := mk_results {
  drugs : list row;
  gene : string;
  threshold : pyfloat;
  last_updated : pyfloat;
  api_errors : option nat
}.

(** Lines 16-23. *)
Definition initial_results : session_results :=
  {| drugs := [];
     gene := "";
     threshold := of_int 0;
     last_updated := of_int 0;
     api_errors := Some 0 |}.

(** [results['api_errors'] = v]. *)
Definition set_api_errors (res : session_results) (v : nat)
    : session_results :=
  {| drugs := drugs res;
     gene := gene res;
     threshold := threshold res;
     last_updated := last_updated res;
     api_errors := Some v |}.

(** [results.get('api_errors', 0)] (lines 173-174). *)
Definition get_api_errors (res : session_results) : nat :=
  match api_errors res with
  | Some n => n
  | None => 0
  end.

(** ** [lru_cache(maxsize=CACHE_SIZE)] around [get_targets] *)

(** Entries are kept most recently used first. *)
Definition lru : Type := list (string * option (list target)).

Fixpoint lru_lookup (k : string) (c : lru) : option (option (list target)) :=
  match c with
  | [] => None
  | (k', v) :: c' => if String.eqb k k' then Some v else lru_lookup k c'
  end.

Fixpoint lru_remove (k : string) (c : lru) : lru :=
  match c with
  | [] => []
  | (k', v) :: c' =>
      if String.eqb k k' then lru_remove k c' else (k', v) :: lru_remove k c'
  end.

(** A hit moves the entry to the front. *)
Definition lru_touch (k : string) (v : option (list target)) (c : lru) : lru :=
  (k, v) :: lru_remove k c.

(** A miss stores the new entry and evicts the least recently used one. *)
Definition lru_store (k : string) (v : option (list target)) (c : lru) : lru :=
  firstn CACHE_SIZE ((k, v) :: c).

(** The state during one execution of the script: [results] is what
    [st.session_state] holds and hands to the next execution;
    [targets_cache] is the cache of the decorated [get_targets], which
    line 26 builds anew, empty, at every execution. *)
Record app_state : Type := mk_state {
  results : session_results;
  targets_cache : lru
}.

(** Line 105: the error counter is reset. *)
Definition reset (st : app_state) : app_state :=
  {| results := set_api_errors (results st) 0;
     targets_cache := targets_cache st |}.

(** ** [DataFrame.sort_values('IC50')] *)

(** pandas orders the rows by ascending key and puts NaN keys last; the
    order among rows of equal key is not fixed by its default sort kind.
    The model rearranges the rows as [sort_ties] says and then sorts them
    by insertion, which keeps rows of equal key in their rearranged order. *)
Fixpoint insert_row (r : row) (l : list row) : list row :=
  match l with
  | [] => [r]
  | x :: l' =>
      if float_le (IC50 r) (IC50 x) then r :: x :: l'
      else x :: insert_row r l'
  end.

Fixpoint sort_rows (l : list row) : list row :=
  match l with
  | [] => []
  | r :: l' => insert_row r (sort_rows l')
  end.

(** Exchange the rows at positions [n] and [n + 1], if there are such. *)
Fixpoint swap_at (n : nat) (l : list row) : list row :=
  match n, l with
  | O, a :: b :: l' => b :: a :: l'
  | S n', a :: l' => a :: swap_at n' l'
  | _, _ => l
  end.

Definition rearrange (swaps : list nat) (l : list row) : list row :=
  fold_left (fun acc n => swap_at n acc) swaps l.

Definition sort_values (py : Builtins) (l : list row) : list row :=
  let l' := rearrange (sort_ties py l) l in
  sort_rows (filter (fun r => negb (is_nan (IC50 r))) l')
  ++ filter (fun r => is_nan (IC50 r)) l'.

(** Ascending order of two rows by their ['IC50'] key. *)
Definition row_le (a b : row) : Prop := float_le (IC50 a) (IC50 b) = true.

(** ** The target resolver and the "Analyze" handler *)

(** The bytes between "at" and the threshold in the message of line 127. *)
Definition le_sign : string :=
  string_of_list_ascii
    (map ascii_of_nat [195; 162; 226; 128; 176; 194; 164]).

Inductive outcome : Type :=
| Completed
| NoTargets
| NoResults
| Crashed (msg : string).

(** What one press of the button leaves behind: the state, how the handler
    ended, the events of the script's thread, and the events of each
    dispatched aggregation (in dispatch order). *)
Record run_report : Type := mk_report {
  final_state : app_state;
  run_outcome : outcome;
  events : list ui_event;
  worker_events : list (list ui_event)
}.

(** [as_completed(futures)]: the futures in their order of completion,
    given as positions in the dispatch list. *)
Definition as_completed {A : Type} (order : list nat) (futures : list A)
    : list A :=
  flat_map (fun i => match nth_error futures i with
                     | Some f => [f]
                     | None => []
                     end) order.

(** The progress line of line 121. *)
Definition progress (total i : nat) (merged : list row) : ui_event :=
  st_write ("Processed target " ++ str_nat (i + 1) ++ "/" ++ str_nat total
            ++ " | Found " ++ str_nat (List.length merged) ++ " drugs")%string.

(** The loop of lines 119-123 over the completed aggregations. *)
Fixpoint merge_loop (total i : nat) (completed : list (list row))
    (merged : list row) (log : list ui_event) : list row * list ui_event :=
  match completed with
  | [] => (merged, log)
  | r :: rest =>
      let merged' := merged ++ r in
      let log' := log ++ [progress total i merged'] in
      if Nat.leb MAX_DRUGS (List.length merged') then (merged', log')
      else merge_loop total (S i) rest merged' log'
  end.

Section Pipeline.

Variable py : Builtins.
Variable remote : Remote.

(** The [try] block of [get_targets] (lines 30-39). *)
Definition search_targets (g : string) : result (option (list target)) :=
  by_syn <- target_by_synonym remote (upper g) ;;
  let targets := firstn (TARGET_LIMIT * 2) by_syn in
  targets <-
    match targets with
    | [] =>
        by_name <- target_by_pref_name remote (upper g) ;;
        Ok (firstn (TARGET_LIMIT * 2) by_name)
    | _ :: _ => Ok targets
    end ;;
  Ok (match targets with
      | [] => None
      | _ :: _ => Some targets
      end).

(** The undecorated [get_targets] (lines 27-44).  The handler of line 41
    increments ['api_errors'], which raises [KeyError] when the key is
    absent. *)
Definition get_targets_body (g : string) (res : session_results)
    : result (option (list target) * session_results * list ui_event) :=
  match search_targets g with
  | Ok targets => Ok (targets, res, [])
  | Raise e =>
      match api_errors res with
      | Some n =>
          Ok (None, set_api_errors res (n + 1),
              [st_error ("Target API error: " ++ e)%string])
      | None => Raise "'api_errors'"
      end
  end.

(** [get_targets] as decorated at line 26. *)
Definition get_targets (g : string) (st : app_state)
    : result (option (list target) * app_state * list ui_event) :=
  match lru_lookup g (targets_cache st) with
  | Some v =>
      Ok (v, {| results := results st;
                targets_cache := lru_touch g v (targets_cache st) |}, [])
  | None =>
      match get_targets_body g (results st) with
      | Ok (v, res, log) =>
          Ok (v, {| results := res;
                    targets_cache := lru_store g v (targets_cache st) |}, log)
      | Raise e => Raise e
      end
  end.

(** Line 118: one aggregation per target, for the first [TARGET_LIMIT]. *)
Definition dispatch (targets : list target) (thr : pyfloat)
    : list (list row * list ui_event) :=
  map (fun t => fetch_drugs py remote t thr) (firstn TARGET_LIMIT targets).

(** Lines 116-123: dispatch, then merge in completion order. *)
Definition collect_results (targets : list target) (thr : pyfloat)
    (order : list nat) : list row * list ui_event * list (list ui_event) :=
  let futures := dispatch targets thr in
  let '(merged, log) :=
    merge_loop (Nat.min (List.length targets) TARGET_LIMIT) 0
      (as_completed order (map fst futures)) [] [] in
  (merged, log, map snd futures).

(** The rows [results] holds when the loop is left. *)
Definition merged_rows (targets : list target) (thr : pyfloat)
    (order : list nat) : list row :=
  fst (fst (collect_results targets thr order)).

(** The body of [if st.button("Analyze")] (lines 104-139), from the state
    [st] in which the execution reaches line 103; [now] is the reading of
    [time.time()] at line 138. *)
Definition analyze (g : string) (thr : pyfloat) (now : pyfloat)
    (order : list nat) (st : app_state) : run_report :=
  let st0 := reset st in
  match get_targets g st0 with
  | Raise e =>
      {| final_state := st0; run_outcome := Crashed e;
         events := []; worker_events := [] |}
  | Ok (None, st1, log) | Ok (Some [], st1, log) =>
      {| final_state := st1; run_outcome := NoTargets;
         events := log ++ [st_error ("No targets found for " ++ g
                     ++ ". Try alternative gene names.")%string];
         worker_events := [] |}
  | Ok (Some targets, st1, log) =>
      let log1 :=
        log ++ [st_info ("Found " ++ str_nat (List.length targets)
                         ++ " targets. Processing...")%string] in
      let '(merged, log2, wlogs) := collect_results targets thr order in
      match merged with
      | [] =>
          {| final_state := st1; run_outcome := NoResults;
             events := log1 ++ log2 ++
               [st_warning ("No drugs found for " ++ g ++ " at " ++ le_sign
                            ++ " " ++ py_str_float py thr
                            ++ " nM. Try:")%string;
                st_markdown "- Increasing threshold (current: {threshold} nM)";
                st_markdown "- Checking gene spelling (used: {gene.upper()})";
                st_markdown "- Reviewing API status: [ChEMBL Status](https://www.ebi.ac.uk/chembl/)"];
             worker_events := wlogs |}
      | _ :: _ =>
          {| final_state :=
               {| results := {| drugs := sort_values py merged;
                                gene := g;
                                threshold := thr;
                                last_updated := now;
                                api_errors := None |};
                  targets_cache := targets_cache st1 |};
             run_outcome := Completed;
             events := log1 ++ log2;
             worker_events := wlogs |}
      end
  end.

(** Lines 177-179: the cache management that ends the script. *)
Definition cache_management (now : pyfloat) (st : app_state) : app_state :=
  if float_lt (last_updated (results st)) (float_sub now (of_int 300))
  then {| results := results st; targets_cache := [] |}
  else st.

(** One execution of the script, from top to bottom.  [session] is what
    [st.session_state] holds under ['results'] when it starts ([None] in a
    new session, lines 16-23), and the cache starts empty (line 26).
    [pressed] tells whether the button of line 103 was pressed; [now] and
    [now_end] are the clock readings of lines 138 and 178.  [st.stop()]
    ends the execution, so the cache management is reached only without a
    press or after a completed run; the blocks of lines 141-175 write
    nothing to the state.  Of the state returned, only [results] is handed
    to the next execution. *)
Definition script_run (session : option session_results) (pressed : bool)
    (g : string) (thr : pyfloat) (now now_end : pyfloat) (order : list nat)
    : app_state :=
  let st := {| results := match session with
                          | Some res => res
                          | None => initial_results
                          end;
               targets_cache := [] |} in
  if pressed then
    let r := analyze g thr now order st in
    match run_outcome r with
    | Completed => cache_management now_end (final_state r)
    | _ => final_state r
    end
  else cache_management now_end st.

(** Lines 172-175: the status caption and the advisory. *)
Definition system_status (st : app_state) : list ui_event :=
  st_info ("API errors in this session: "
           ++ str_nat (get_api_errors (results st)))%string
  :: (if Nat.ltb 3 (get_api_errors (results st))
      then [st_error "High API error rate. Consider pausing requests."]
      else []).

End Pipeline.

(** ** Auxiliary definitions for the statements *)

(** The rows one aggregation appends, in the order the loop visits the
    mechanisms. *)
Definition emitted (py : Builtins) (remote : Remote) (tgt : target)
    (thr : pyfloat) (mechs : list mechanism) : list row :=
  flat_map (fun mech => match process_mech py remote tgt thr mech with
                        | Ok (Some r) => [r]
                        | _ => []
                        end) mechs.

(** Ascending order of two keys. *)
Definition key_le (a b : pyfloat) : Prop := float_le a b = true.

(** The dictionary a run leaves in the store, and its rows. *)
Definition stored (r : run_report) : session_results :=
  results (final_state r).

Definition stored_rows (r : run_report) : list row := drugs (stored r).

(** ** A small remote source to run the script on *)

Module Demo.

(** Decimal digits only: enough to feed the script integer potencies. *)
Definition py : Builtins :=
  {| py_float := fun s =>
       match NilZero.uint_of_string s with
       | Some u => Ok (of_int (Z.of_nat (Nat.of_uint u)))
       | None => Raise "could not convert string to float"
       end;
     py_str_float := fun f =>
       match f with
       | Fin z => (str_nat (Z.to_nat (Z.shiftr z 1074)) ++ ".0")%string
       | NaN => "nan"
       | PosInf => "inf"
       | NegInf => "-inf"
       end;
     sort_ties := fun l => seq 0 (List.length l - 1) |}.

Definition cox2 : target := mk_target "CHEMBL230" (Present "Cyclooxygenase-2").
Definition orphan : target := mk_target "CHEMBL9999" Null.
Definition crowded : target := mk_target "CHEMBL777" Missing.

Definition mech (id : string) : mechanism := mk_mechanism id None.

Definition remote : Remote :=
  {| target_by_synonym := fun name =>
       if String.eqb name "PTGS2" then Ok [cox2; orphan]
       else if String.eqb name "ORPHAN" then Ok [orphan]
       else if String.eqb name "DOWN" then Raise "connection timed out"
       else Ok [];
     target_by_pref_name := fun name =>
       if String.eqb name "CYCLOOXYGENASE-2" then Ok [cox2] else Ok [];
     mechanism_by_target := fun tid =>
       if String.eqb tid "CHEMBL230"
       then Ok [mech "CHEMBL118"; mech "CHEMBL1234"; mech "CHEMBL6";
                mech "CHEMBL521"; mech "CHEMBL404"]
       else if String.eqb tid "CHEMBL777" then Ok (repeat (mech "CHEMBL118") 51)
       else Raise "503 Service Unavailable";
     molecule_get := fun mid =>
       if String.eqb mid "CHEMBL118"
       then Ok (mk_molecule (Present "CELECOXIB") (Present (of_int 4)))
       else if String.eqb mid "CHEMBL1234" then Ok (mk_molecule Null Null)
       else if String.eqb mid "CHEMBL12349"
       then Ok (mk_molecule Missing Missing)
       else if String.eqb mid "CHEMBL6"
       then Ok (mk_molecule (Present "INDOMETHACIN") (Present (of_int 4)))
       else if String.eqb mid "CHEMBL521"
       then Ok (mk_molecule (Present "IBUPROFEN") (Present (of_int 4)))
       else Raise "404 Not Found";
     activity_filter := fun mid tid =>
       if String.eqb mid "CHEMBL118" then Ok [mk_activity (Some "900") (Some "nM")]
       else if String.eqb mid "CHEMBL1234"
       then Ok [mk_activity (Some "40") (Some "nM");
                mk_activity (Some "7") (Some "nM")]
       else if String.eqb mid "CHEMBL12349"
       then Ok [mk_activity (Some "55") (Some "nM")]
       else if String.eqb mid "CHEMBL6"
       then Ok [mk_activity (Some "20000") (Some "nM")]
       else if String.eqb mid "CHEMBL521"
       then Ok [mk_activity (Some "12") (Some "uM")]
       else Ok [] |}.

Definition fresh : app_state :=
  {| results := initial_results; targets_cache := [] |}.

(** The state at the start of an execution of the script whose stored
    dictionary was left by a run ten minutes before [of_int 2000]. *)
Definition aged : app_state :=
  {| results := {| drugs := [mk_row (Some "CELECOXIB") (of_int 900)
                               (PhaseNum (of_int 4))
                               (Some "Cyclooxygenase-2")];
                   gene := "PTGS2";
                   threshold := of_int 10000;
                   last_updated := of_int 1400;
                   api_errors := None |};
     targets_cache := [] |}.

Definition run (g : string) (thr : Z) (order : list nat) (st : app_state)
    : run_report :=
  analyze py remote g (of_int thr) (of_int 2000) order st.

End Demo.

(** ** Further auxiliary definitions *)

(** The warning of line 82 for a mechanism whose processing raised [e]. *)
Definition skip_warning (mech : mechanism) (e : string) : ui_event :=
  st_warning ("Skipped drug " ++ molecule_chembl_id mech ++ ": " ++ e)%string.

(** The warnings one aggregation issues, in the order the loop visits the
    mechanisms. *)
Definition skipped (py : Builtins) (remote : Remote) (tgt : target)
    (thr : pyfloat) (mechs : list mechanism) : list ui_event :=
  flat_map (fun mech => match process_mech py remote tgt thr mech with
                        | Raise e => [skip_warning mech e]
                        | _ => []
                        end) mechs.

(** The ['Target'] cell of line 78. *)
Definition target_label (tgt : target) : option string :=
  match target_pref_name tgt with
  | Missing => Some (target_chembl_id tgt)
  | Null => None
  | Present n => Some n
  end.

(** What the decorator keeps: at most [CACHE_SIZE] entries, one per key. *)
Definition cache_ok (c : lru) : Prop :=
  List.length c <= CACHE_SIZE /\ NoDup (map fst c).

(** [not targets] at line 109. *)
Definition no_targets (v : option (list target)) : Prop :=
  v = None \/ v = Some [].

Definition is_progress (e : ui_event) : bool :=
  match e with
  | st_write _ => true
  | _ => false
  end.

(** The caption of line 173. *)
Definition status_caption (n : nat) : ui_event :=
  st_info ("API errors in this session: " ++ str_nat n)%string.

Module Scenario.

(** The demonstration source after its target search has recovered. *)
Definition recovered : Remote :=
  {| target_by_synonym := fun name =>
       if String.eqb name "DOWN" then Ok [Demo.cox2]
       else target_by_synonym Demo.remote name;
     target_by_pref_name := target_by_pref_name Demo.remote;
     mechanism_by_target := mechanism_by_target Demo.remote;
     molecule_get := molecule_get Demo.remote;
     activity_filter := activity_filter Demo.remote |}.

(** A full cache, as direct calls of [get_targets] within one execution
    can leave it: "PTGS2" used last, "ORPHAN" before it. *)
Definition full : app_state :=
  {| results := initial_results;
     targets_cache := [("PTGS2", Some [Demo.cox2; Demo.orphan]);
                       ("ORPHAN", Some [Demo.orphan])] |}.

End Scenario.

(** * Properties *)

(** ** The order on floats *)

Lemma round_units_exact (z : Z) :
  exact_float z = true -> round_units z = Fin z.
Proof.
  unfold exact_float, round_units.
  set (m := Z.abs z). set (e := (Z.log2 m - 52)%Z).
  destruct (e <=? 0)%Z eqn:Ee; [reflexivity|].
  apply Z.leb_gt in Ee. rewrite orb_false_l, andb_true_iff.
  intros [Hmod Hlt]. apply Z.eqb_eq in Hmod.
  assert (Hq : Z.shiftl (Z.shiftr m e) e = m).
  { rewrite Z.shiftr_div_pow2, Z.shiftl_mul_pow2 by lia.
    pose proof (Z.div_mod m (2 ^ e)) as Hdm.
    assert (H2 : (2 ^ e <> 0)%Z) by (apply Z.pow_nonzero; lia).
    specialize (Hdm H2). lia. }
  rewrite Hq, Z.sub_diag.
  assert (Hhalf : (0 < Z.shiftl 1 (e - 1))%Z).
  { rewrite Z.shiftl_mul_pow2 by lia.
    assert (0 < 2 ^ (e - 1))%Z by (apply Z.pow_pos_nonneg; lia). lia. }
  assert (E1 : (Z.shiftl 1 (e - 1) <? 0)%Z = false) by (apply Z.ltb_ge; lia).
  assert (E2 : (0 =? Z.shiftl 1 (e - 1))%Z = false) by (apply Z.eqb_neq; lia).
  rewrite E1, E2. cbn [orb andb]. rewrite Hq.
  assert (E3 : (Z.shiftl 1 2098 <=? m)%Z = false).
  { apply Z.ltb_lt in Hlt. apply Z.leb_gt. exact Hlt. }
  rewrite E3. f_equal. unfold m. clear. destruct z; reflexivity.
Qed.

(** A clock reading between 300 and 2^55 time units is one from which 300
    is subtracted exactly. *)
Lemma clock_minus_300_exact (n : Z) :
  exact_float n = true ->
  (Z.shiftl 300 1074 <= n < 2 ^ 1129)%Z ->
  exact_float (n - Z.shiftl 300 1074) = true.
Proof.
  intros Hn [Hlo Hhi].
  assert (Hw : Z.shiftl 300 1074 = (75 * 2 ^ 1076)%Z)
    by (vm_compute; reflexivity).
  assert (Hcap : Z.shiftl 1 2098 = (2 ^ 2098)%Z) by (vm_compute; reflexivity).
  assert (Hpos : (0 < 2 ^ 1076)%Z) by (apply Z.pow_pos_nonneg; lia).
  remember (Z.shiftl 300 1074) as w eqn:Ew.
  assert (Hn0 : (0 < n)%Z) by lia.
  unfold exact_float in *. rewrite Hcap in *.
  rewrite (Z.abs_eq (n - w)) by lia. rewrite (Z.abs_eq n) in Hn by lia.
  set (z := (n - w)%Z) in *.
  destruct (Z.log2 z - 52 <=? 0)%Z eqn:Ez; [reflexivity|].
  apply Z.leb_gt in Ez. cbn [orb].
  assert (Hz0 : (0 < z)%Z).
  { destruct (Z.le_gt_cases z 0) as [Hle|Hgt]; [|lia].
    rewrite (Z.log2_nonpos z Hle) in Ez. lia. }
  assert (Hmono : (Z.log2 z <= Z.log2 n)%Z) by (apply Z.log2_le_mono; lia).
  assert (Hln : (Z.log2 n < 1129)%Z) by (apply Z.log2_lt_pow2; lia).
  assert (En : (Z.log2 n - 52 <=? 0)%Z = false) by (apply Z.leb_gt; lia).
  rewrite En in Hn. cbn [orb] in Hn. apply andb_true_iff in Hn.
  destruct Hn as [Hmod _]. apply Z.eqb_eq in Hmod.
  set (ez := (Z.log2 z - 52)%Z) in *. set (en := (Z.log2 n - 52)%Z) in *.
  assert (Hdn : (2 ^ ez | n)%Z).
  { apply Z.divide_trans with (2 ^ en)%Z.
    - exists (2 ^ (en - ez))%Z. rewrite <- Z.pow_add_r by lia.
      f_equal. lia.
    - apply Z.mod_divide; [apply Z.pow_nonzero; lia|exact Hmod]. }
  assert (Hdw : (2 ^ ez | w)%Z).
  { rewrite Hw. apply Z.divide_mul_r.
    exists (2 ^ (1076 - ez))%Z. rewrite <- Z.pow_add_r by lia.
    f_equal. lia. }
  apply andb_true_iff. split.
  - apply Z.eqb_eq. apply Z.mod_divide; [apply Z.pow_nonzero; lia|].
    unfold z. now apply Z.divide_sub_r.
  - apply Z.ltb_lt.
    assert ((2 ^ 1129 < 2 ^ 2098)%Z) by (apply Z.pow_lt_mono_r; lia). lia.
Qed.

Lemma float_le_trans (a b c : pyfloat) :
  float_le a b = true -> float_le b c = true -> float_le a c = true.
Proof.
  destruct a, b, c; simpl; try congruence.
  intros H1 H2. apply Z.leb_le in H1, H2. apply Z.leb_le. lia.
Qed.

Lemma float_le_lt_trans (a b c : pyfloat) :
  float_le a b = true -> float_lt b c = true -> float_le a c = true.
Proof.
  destruct a, b, c; simpl; try congruence.
  intros H1 H2. apply Z.leb_le in H1. apply Z.ltb_lt in H2.
  apply Z.leb_le. lia.
Qed.

Lemma float_le_antisym (a b : pyfloat) :
  float_le a b = true -> float_le b a = true -> a = b.
Proof.
  destruct a, b; simpl; try congruence.
  intros H1 H2. apply Z.leb_le in H1, H2. f_equal. lia.
Qed.

Lemma float_le_total (a b : pyfloat) :
  is_nan a = false -> is_nan b = false ->
  float_le a b = true \/ float_le b a = true.
Proof.
  destruct a, b; simpl; try congruence; auto.
  intros _ _. destruct (Z.leb_spec units units0); [now left | right].
  apply Z.leb_le. lia.
Qed.

Lemma float_le_not_nan (a b : pyfloat) :
  float_le a b = true -> is_nan a = false /\ is_nan b = false.
Proof. destruct a, b; simpl; try congruence; auto. Qed.

Lemma row_le_trans (a b c : row) : row_le a b -> row_le b c -> row_le a c.
Proof. unfold row_le. apply float_le_trans. Qed.

(** ** [sort_values] *)

Lemma insert_row_perm (r : row) (l : list row) :
  Permutation (insert_row r l) (r :: l).
Proof.
  induction l as [|x l IH]; simpl; [reflexivity|].
  destruct (float_le (IC50 r) (IC50 x)); [reflexivity|].
  rewrite IH. apply perm_swap.
Qed.

Lemma sort_rows_perm (l : list row) : Permutation (sort_rows l) l.
Proof.
  induction l as [|r l IH]; simpl; [reflexivity|].
  rewrite insert_row_perm. now constructor.
Qed.

Lemma filter_split_perm {A : Type} (f : A -> bool) (l : list A) :
  Permutation (filter (fun x => negb (f x)) l ++ filter f l) l.
Proof.
  induction l as [|x l IH]; simpl; [reflexivity|].
  destruct (f x); simpl.
  - rewrite <- Permutation_middle. now constructor.
  - now constructor.
Qed.

Lemma swap_at_perm (n : nat) (l : list row) : Permutation (swap_at n l) l.
Proof.
  revert l. induction n as [|n IH]; intros [|a l]; simpl; try reflexivity.
  - destruct l as [|b l]; [reflexivity|apply perm_swap].
  - constructor. apply IH.
Qed.

Lemma rearrange_perm (swaps : list nat) (l : list row) :
  Permutation (rearrange swaps l) l.
Proof.
  unfold rearrange. revert l.
  induction swaps as [|n swaps IH]; intros l; simpl; [reflexivity|].
  rewrite IH. apply swap_at_perm.
Qed.

Lemma sort_values_perm (py : Builtins) (l : list row) :
  Permutation (sort_values py l) l.
Proof.
  unfold sort_values. rewrite sort_rows_perm.
  rewrite (filter_split_perm (fun r => is_nan (IC50 r))).
  apply rearrange_perm.
Qed.

Lemma insert_row_sorted (r : row) (l : list row) :
  is_nan (IC50 r) = false ->
  Forall (fun x => is_nan (IC50 x) = false) l ->
  StronglySorted row_le l -> StronglySorted row_le (insert_row r l).
Proof.
  intros Hr Hl Hs. induction Hs as [|x l Hs IH Hx]; simpl.
  - repeat constructor.
  - inversion Hl as [|? ? Hnx Hl']; subst.
    destruct (float_le (IC50 r) (IC50 x)) eqn:E.
    + constructor; [now constructor|].
      constructor; [exact E|].
      eapply Forall_impl; [|exact Hx].
      intros y Hy. eapply row_le_trans; [exact E|exact Hy].
    + constructor; [now apply IH|].
      assert (Hxr : row_le x r).
      { destruct (float_le_total (IC50 r) (IC50 x) Hr Hnx); [congruence|easy]. }
      eapply Permutation_Forall; [symmetry; apply insert_row_perm|].
      now constructor.
Qed.

Lemma sort_rows_sorted (l : list row) :
  Forall (fun x => is_nan (IC50 x) = false) l ->
  StronglySorted row_le (sort_rows l).
Proof.
  induction 1 as [|r l Hr Hl IH]; simpl; [constructor|].
  apply insert_row_sorted; auto.
  eapply Permutation_Forall; [symmetry; apply sort_rows_perm|exact Hl].
Qed.

Lemma filter_all {A : Type} (f : A -> bool) (l : list A) :
  Forall (fun x => f x = true) l -> filter f l = l.
Proof.
  induction 1 as [|x l Hx _ IH]; simpl; [reflexivity|].
  now rewrite Hx, IH.
Qed.

Lemma filter_none {A : Type} (f : A -> bool) (l : list A) :
  Forall (fun x => f x = false) l -> filter f l = [].
Proof.
  induction 1 as [|x l Hx _ IH]; simpl; [reflexivity|].
  now rewrite Hx, IH.
Qed.

Lemma sort_values_no_nan (py : Builtins) (l : list row) :
  Forall (fun x => is_nan (IC50 x) = false) l ->
  sort_values py l = sort_rows (rearrange (sort_ties py l) l).
Proof.
  intros H. unfold sort_values.
  assert (H' : Forall (fun x => is_nan (IC50 x) = false)
                 (rearrange (sort_ties py l) l))
    by (eapply Permutation_Forall; [symmetry; apply rearrange_perm|exact H]).
  rewrite (filter_none (fun r => is_nan (IC50 r))) by exact H'.
  rewrite filter_all, app_nil_r; [reflexivity|].
  eapply Forall_impl; [|exact H']. intros x Hx. simpl. now rewrite Hx.
Qed.

Lemma sort_values_sorted (py : Builtins) (l : list row) :
  Forall (fun x => is_nan (IC50 x) = false) l ->
  StronglySorted row_le (sort_values py l).
Proof.
  intros H. rewrite sort_values_no_nan by exact H. apply sort_rows_sorted.
  eapply Permutation_Forall; [symmetry; apply rearrange_perm|exact H].
Qed.

(** A list already in ascending order is left as it is. *)
Lemma sort_rows_fixed (l : list row) :
  StronglySorted row_le l -> sort_rows l = l.
Proof.
  induction 1 as [|r l Hs IH Hr]; simpl; [reflexivity|].
  rewrite IH. destruct l as [|x l']; simpl; [reflexivity|].
  inversion Hr as [|? ? Hx _]; subst. unfold row_le in Hx. now rewrite Hx.
Qed.

Lemma key_le_trans (a b c : pyfloat) : key_le a b -> key_le b c -> key_le a c.
Proof. unfold key_le. apply float_le_trans. Qed.

Lemma sorted_keys (l : list row) :
  StronglySorted row_le l -> StronglySorted key_le (map IC50 l).
Proof.
  induction 1 as [|r l Hs IH Hr]; simpl; constructor; auto.
  apply Forall_map. exact Hr.
Qed.

(** Two ascending arrangements of the same keys are the same sequence. *)
Lemma sorted_keys_unique (l1 l2 : list pyfloat) :
  StronglySorted key_le l1 -> StronglySorted key_le l2 ->
  Permutation l1 l2 -> l1 = l2.
Proof.
  intros H1. revert l2.
  induction H1 as [|a l1 Hs1 IH Ha]; intros l2 H2 HP.
  - apply Permutation_nil in HP. now subst.
  - destruct H2 as [|b l2 Hs2 Hb].
    + symmetry in HP. apply Permutation_nil in HP. discriminate.
    + assert (Hab : a = b).
      { assert (Hin1 : In b (a :: l1))
          by (eapply Permutation_in; [symmetry; exact HP|now left]).
        assert (Hin2 : In a (b :: l2))
          by (eapply Permutation_in; [exact HP|now left]).
        destruct Hin1 as [->|Hin1]; [reflexivity|].
        destruct Hin2 as [<-|Hin2]; [reflexivity|].
        rewrite Forall_forall in Ha, Hb.
        apply float_le_antisym; [now apply Ha|now apply Hb]. }
      subst b. f_equal. apply IH; [exact Hs2|].
      eapply Permutation_cons_inv. exact HP.
Qed.

(** ** The drug aggregator *)

Section AggregatorFacts.

Variable py : Builtins.
Variable remote : Remote.

Lemma budget_value : MAX_DRUGS / TARGET_LIMIT = 25.
Proof. reflexivity. Qed.

(** A row is appended only behind the test of line 73. *)
Lemma process_mech_le (tgt : target) (thr : pyfloat) (m : mechanism) (r : row) :
  process_mech py remote tgt thr m = Ok (Some r) ->
  float_le (IC50 r) thr = true.
Proof.
  unfold process_mech, bind.
  destruct (molecule_get remote _) as [drug|]; [|discriminate].
  destruct (activity_filter remote _ _) as [all|]; [|discriminate].
  destruct (firstn 1 all) as [|a ?]; [discriminate|].
  destruct (andb _ _); [|discriminate].
  destruct (standard_value a) as [v|]; [|discriminate].
  destruct (py_float py v) as [ic50|]; [|discriminate].
  destruct (float_le ic50 thr) eqn:E; [|discriminate].
  intros [= <-]. exact E.
Qed.

(** The threshold only decides whether the row is kept. *)
Lemma process_mech_mono (tgt : target) (t1 t2 : pyfloat) (m : mechanism)
    (r : row) :
  float_lt t1 t2 = true ->
  process_mech py remote tgt t1 m = Ok (Some r) ->
  process_mech py remote tgt t2 m = Ok (Some r).
Proof.
  intros Hlt. unfold process_mech, bind.
  destruct (molecule_get remote _) as [drug|]; [|discriminate].
  destruct (activity_filter remote _ _) as [all|]; [|discriminate].
  destruct (firstn 1 all) as [|a ?]; [discriminate|].
  destruct (andb _ _); [|discriminate].
  destruct (standard_value a) as [v|]; [|discriminate].
  destruct (py_float py v) as [ic50|]; [|discriminate].
  destruct (float_le ic50 t1) eqn:E; [|discriminate].
  rewrite (float_le_lt_trans _ _ _ E Hlt). easy.
Qed.

Lemma drugs_loop_rows (tgt : target) (thr : pyfloat) (mechs : list mechanism) :
  forall drugs0 log,
    fst (drugs_loop py remote tgt thr mechs drugs0 log)
    = drugs0 ++ emitted py remote tgt thr mechs.
Proof.
  induction mechs as [|m mechs IH]; intros drugs0 log; simpl.
  - now rewrite app_nil_r.
  - destruct (process_mech py remote tgt thr m) as [[r|]|e]; rewrite IH.
    + now rewrite <- app_assoc.
    + reflexivity.
    + reflexivity.
Qed.

Lemma emitted_length (tgt : target) (thr : pyfloat) (mechs : list mechanism) :
  List.length (emitted py remote tgt thr mechs) <= List.length mechs.
Proof.
  induction mechs as [|m mechs IH]; simpl; [lia|].
  rewrite length_app.
  destruct (process_mech py remote tgt thr m) as [[r|]|e]; simpl; lia.
Qed.

Lemma emitted_in (tgt : target) (thr : pyfloat) (mechs : list mechanism)
    (r : row) :
  In r (emitted py remote tgt thr mechs) <->
  exists m, In m mechs /\ process_mech py remote tgt thr m = Ok (Some r).
Proof.
  unfold emitted. rewrite in_flat_map. split.
  - intros (m & Hm & Hr). exists m. split; [exact Hm|].
    destruct (process_mech py remote tgt thr m) as [[r'|]|e];
      simpl in Hr; try contradiction.
    destruct Hr as [->|[]]. reflexivity.
  - intros (m & Hm & Hr). exists m. split; [exact Hm|].
    rewrite Hr. now left.
Qed.

(** What [fetch_drugs] returns, read off the remote answer. *)
Lemma fetch_drugs_rows (tgt : target) (thr : pyfloat) :
  fst (fetch_drugs py remote tgt thr)
  = match mechanism_by_target remote (target_chembl_id tgt) with
    | Ok all => emitted py remote tgt thr (firstn (MAX_DRUGS / TARGET_LIMIT) all)
    | Raise _ => []
    end.
Proof.
  unfold fetch_drugs, fetch_mechs, bind, selected_mechs.
  destruct (mechanism_by_target remote _) as [all|e]; [|reflexivity].
  rewrite drugs_loop_rows, firstn_firstn. reflexivity.
Qed.

Lemma fetch_drugs_length (tgt : target) (thr : pyfloat) :
  List.length (fst (fetch_drugs py remote tgt thr)) <= MAX_DRUGS / TARGET_LIMIT.
Proof.
  rewrite fetch_drugs_rows.
  destruct (mechanism_by_target remote _) as [all|e].
  - etransitivity; [apply emitted_length|]. apply firstn_le_length.
  - apply Nat.le_0_l.
Qed.

Lemma fetch_drugs_le (tgt : target) (thr : pyfloat) :
  Forall (fun r => float_le (IC50 r) thr = true)
         (fst (fetch_drugs py remote tgt thr)).
Proof.
  rewrite fetch_drugs_rows. apply Forall_forall. intros r Hr.
  destruct (mechanism_by_target remote _) as [all|e]; [|contradiction].
  apply emitted_in in Hr. destruct Hr as (m & _ & Hr).
  eapply process_mech_le. exact Hr.
Qed.

Lemma fetch_drugs_mono (tgt : target) (t1 t2 : pyfloat) :
  float_lt t1 t2 = true ->
  incl (fst (fetch_drugs py remote tgt t1)) (fst (fetch_drugs py remote tgt t2)).
Proof.
  intros Hlt r. rewrite !fetch_drugs_rows.
  destruct (mechanism_by_target remote _) as [all|e]; [|easy].
  rewrite !emitted_in. intros (m & Hm & Hr). exists m. split; [exact Hm|].
  eapply process_mech_mono; eauto.
Qed.

End AggregatorFacts.

(** ** Completion order and the merge loop *)

Lemma as_completed_in {A : Type} (order : list nat) (futures : list A) (x : A) :
  In x (as_completed order futures) -> In x futures.
Proof.
  unfold as_completed. rewrite in_flat_map. intros (i & _ & Hx).
  destruct (nth_error futures i) as [f|] eqn:E; [|contradiction].
  destruct Hx as [->|[]]. eapply nth_error_In. exact E.
Qed.

Lemma as_completed_seq {A : Type} (pre futures : list A) :
  as_completed (seq (List.length pre) (List.length futures)) (pre ++ futures)
  = futures.
Proof.
  revert pre. induction futures as [|f futures IH]; intros pre; simpl.
  - reflexivity.
  - rewrite nth_error_app2 by lia. rewrite Nat.sub_diag. simpl. f_equal.
    specialize (IH (pre ++ [f])).
    rewrite length_app, <- app_assoc in IH. simpl in IH.
    rewrite Nat.add_1_r in IH. exact IH.
Qed.

(** Every future completes exactly once. *)
Lemma as_completed_perm {A : Type} (order : list nat) (futures : list A) :
  Permutation order (seq 0 (List.length futures)) ->
  Permutation (as_completed order futures) futures.
Proof.
  intros HP. unfold as_completed.
  rewrite (Permutation_flat_map _ HP).
  pose proof (as_completed_seq [] futures) as E.
  unfold as_completed in E. simpl in E. rewrite E. reflexivity.
Qed.

(** No future completes twice. *)
Lemma as_completed_length {A : Type} (order : list nat) (futures : list A) :
  NoDup order ->
  List.length (as_completed order futures) <= List.length futures.
Proof.
  intros Hnd.
  assert (Hlen : List.length (as_completed order futures)
                 = List.length (filter (fun i => Nat.ltb i (List.length futures))
                                       order)).
  { unfold as_completed. clear Hnd.
    induction order as [|i order IH]; simpl; [reflexivity|].
    rewrite length_app, IH.
    destruct (nth_error futures i) as [f|] eqn:E.
    - assert (Hi : i < List.length futures)
        by (apply nth_error_Some; congruence).
      apply Nat.ltb_lt in Hi. rewrite Hi. reflexivity.
    - apply nth_error_None in E.
      assert (Hi : Nat.ltb i (List.length futures) = false)
        by (apply Nat.ltb_ge; exact E).
      rewrite Hi. reflexivity. }
  rewrite Hlen.
  transitivity (List.length (seq 0 (List.length futures)));
    [|rewrite length_seq; apply Nat.le_refl].
  apply NoDup_incl_length.
  - now apply NoDup_filter.
  - intros i Hi. apply filter_In in Hi. destruct Hi as [_ Hi].
    apply Nat.ltb_lt in Hi. apply in_seq. lia.
Qed.

Lemma merge_loop_cons (total i : nat) (r : list row) (rest : list (list row))
    (merged : list row) (log : list ui_event) :
  merge_loop total i (r :: rest) merged log
  = if Nat.leb MAX_DRUGS (List.length (merged ++ r))
    then (merged ++ r, log ++ [progress total i (merged ++ r)])
    else merge_loop total (S i) rest (merged ++ r)
           (log ++ [progress total i (merged ++ r)]).
Proof. reflexivity. Qed.

Lemma merge_loop_incl (total : nat) (completed : list (list row)) :
  forall i merged log,
    incl (fst (merge_loop total i completed merged log))
         (merged ++ List.concat completed).
Proof.
  induction completed as [|r rest IH]; intros i merged log.
  - simpl. rewrite app_nil_r. apply incl_refl.
  - rewrite merge_loop_cons. cbn [List.concat]. rewrite app_assoc.
    destruct (Nat.leb MAX_DRUGS (List.length (merged ++ r))).
    + apply incl_appl, incl_refl.
    + apply IH.
Qed.

Lemma concat_perm {A : Type} (l1 l2 : list (list A)) :
  Permutation l1 l2 -> Permutation (List.concat l1) (List.concat l2).
Proof.
  induction 1 as [|x l1 l2 _ IH|x y l|l1 l2 l3 _ IH1 _ IH2]; cbn [List.concat].
  - reflexivity.
  - now apply Permutation_app_head.
  - rewrite !app_assoc. apply Permutation_app_tail, Permutation_app_comm.
  - now transitivity (List.concat l2).
Qed.

(** The loop leaves as soon as the running count reaches the cap. *)
Lemma merge_loop_stops (total i : nat) (r : list row) (rest : list (list row))
    (merged : list row) (log : list ui_event) :
  MAX_DRUGS <= List.length (merged ++ r) ->
  fst (merge_loop total i (r :: rest) merged log) = merged ++ r.
Proof.
  intros H. rewrite merge_loop_cons. apply Nat.leb_le in H. rewrite H.
  reflexivity.
Qed.

Lemma merge_loop_length (total : nat) (b : nat) (completed : list (list row)) :
  Forall (fun r => List.length r <= b) completed ->
  forall i merged log,
    List.length (fst (merge_loop total i completed merged log))
    <= List.length merged + b * List.length completed.
Proof.
  induction 1 as [|r rest Hr _ IH]; intros i merged log.
  - simpl. lia.
  - rewrite merge_loop_cons. cbn [List.length].
    destruct (Nat.leb MAX_DRUGS (List.length (merged ++ r))).
    + cbn [fst]. rewrite length_app. nia.
    + etransitivity; [apply IH|]. rewrite length_app. nia.
Qed.

(** Within the budget the early exit never drops an aggregation. *)
Lemma merge_loop_all (total : nat) (b : nat) (completed : list (list row)) :
  Forall (fun r => List.length r <= b) completed ->
  forall i merged log,
    List.length merged + b * List.length completed <= MAX_DRUGS ->
    fst (merge_loop total i completed merged log)
    = merged ++ List.concat completed.
Proof.
  induction 1 as [|r rest Hr Hrest IH]; intros i merged log Hb.
  - simpl. now rewrite app_nil_r.
  - rewrite merge_loop_cons. cbn [List.length List.concat] in *.
    destruct (Nat.leb MAX_DRUGS (List.length (merged ++ r))) eqn:E.
    + apply Nat.leb_le in E. rewrite length_app in E. cbn [fst].
      assert (Hz : b * List.length rest = 0) by nia.
      assert (Hc : List.concat rest = []).
      { apply Nat.eq_mul_0 in Hz. destruct Hz as [Hz|Hz].
        - subst b. clear -Hrest. induction Hrest as [|x l Hx _ IHl].
          + reflexivity.
          + cbn [List.concat]. rewrite IHl.
            destruct x; [reflexivity|simpl in Hx; lia].
        - destruct rest; [reflexivity|discriminate]. }
      now rewrite Hc, app_nil_r.
    + rewrite IH, app_assoc; [reflexivity|]. rewrite length_app. nia.
Qed.

(** ** The orchestrator *)

Section PipelineFacts.

Variable py : Builtins.
Variable remote : Remote.

Lemma merged_rows_eq (targets : list target) (thr : pyfloat) (order : list nat) :
  merged_rows py remote targets thr order
  = fst (merge_loop (Nat.min (List.length targets) TARGET_LIMIT) 0
           (as_completed order (map fst (dispatch py remote targets thr)))
           [] []).
Proof.
  unfold merged_rows, collect_results.
  destruct (merge_loop _ _ _ _ _) as [merged log]. reflexivity.
Qed.

Lemma dispatch_length (targets : list target) (thr : pyfloat) :
  List.length (dispatch py remote targets thr)
  = Nat.min (List.length targets) TARGET_LIMIT.
Proof.
  unfold dispatch. rewrite length_map, length_firstn. apply Nat.min_comm.
Qed.

Lemma dispatch_in (targets : list target) (thr : pyfloat) (rows : list row) :
  In rows (map fst (dispatch py remote targets thr)) <->
  exists t, In t (firstn TARGET_LIMIT targets)
            /\ rows = fst (fetch_drugs py remote t thr).
Proof.
  unfold dispatch. rewrite map_map, in_map_iff. split.
  - intros (t & <- & Ht). now exists t.
  - intros (t & Ht & ->). now exists t.
Qed.

Lemma completed_budget (targets : list target) (thr : pyfloat)
    (order : list nat) :
  Forall (fun r => List.length r <= MAX_DRUGS / TARGET_LIMIT)
         (as_completed order (map fst (dispatch py remote targets thr))).
Proof.
  apply Forall_forall. intros rows Hin.
  apply as_completed_in, dispatch_in in Hin. destruct Hin as (t & _ & ->).
  apply fetch_drugs_length.
Qed.

Lemma merged_rows_in (targets : list target) (thr : pyfloat)
    (order : list nat) (r : row) :
  In r (merged_rows py remote targets thr order) ->
  exists t, In t (firstn TARGET_LIMIT targets)
            /\ In r (fst (fetch_drugs py remote t thr)).
Proof.
  rewrite merged_rows_eq. intros Hin. apply merge_loop_incl in Hin.
  simpl in Hin. apply in_concat in Hin. destruct Hin as (rows & Hrows & Hr).
  apply as_completed_in, dispatch_in in Hrows.
  destruct Hrows as (t & Ht & ->). now exists t.
Qed.

Lemma merged_rows_le (targets : list target) (thr : pyfloat)
    (order : list nat) :
  Forall (fun r => float_le (IC50 r) thr = true)
         (merged_rows py remote targets thr order).
Proof.
  apply Forall_forall. intros r Hr.
  apply merged_rows_in in Hr. destruct Hr as (t & _ & Hr).
  pose proof (fetch_drugs_le py remote t thr) as H.
  rewrite Forall_forall in H. now apply H.
Qed.

Lemma merged_rows_length (targets : list target) (thr : pyfloat)
    (order : list nat) :
  NoDup order ->
  List.length (merged_rows py remote targets thr order) <= MAX_DRUGS.
Proof.
  intros Hnd. rewrite merged_rows_eq.
  etransitivity;
    [apply (merge_loop_length _ _ _ (completed_budget targets thr order))|].
  pose proof (as_completed_length order
                (map fst (dispatch py remote targets thr)) Hnd) as Hlen.
  rewrite length_map, dispatch_length in Hlen.
  pose proof (Nat.le_min_r (List.length targets) TARGET_LIMIT) as Hmin.
  change (MAX_DRUGS / TARGET_LIMIT) with 25. change MAX_DRUGS with 75.
  change TARGET_LIMIT with 3 in Hmin, Hlen. simpl List.length. lia.
Qed.

(** When every aggregation completes once, every one of them is merged. *)
Lemma merged_rows_all (targets : list target) (thr : pyfloat)
    (order : list nat) :
  Permutation order (seq 0 (Nat.min (List.length targets) TARGET_LIMIT)) ->
  Permutation (merged_rows py remote targets thr order)
              (List.concat (map fst (dispatch py remote targets thr))).
Proof.
  intros HP. rewrite merged_rows_eq.
  assert (HP' : Permutation
                  (as_completed order (map fst (dispatch py remote targets thr)))
                  (map fst (dispatch py remote targets thr))).
  { apply as_completed_perm. now rewrite length_map, dispatch_length. }
  rewrite (merge_loop_all _ _ _ (completed_budget targets thr order)).
  - simpl. now apply concat_perm.
  - rewrite (Permutation_length HP'), length_map, dispatch_length.
    pose proof (Nat.le_min_r (List.length targets) TARGET_LIMIT) as Hmin.
    change (MAX_DRUGS / TARGET_LIMIT) with 25. change MAX_DRUGS with 75.
    change TARGET_LIMIT with 3 in Hmin |- *. simpl List.length. lia.
Qed.

(** *** [get_targets] *)

Lemma get_targets_body_frame (g : string) (res res' : session_results)
    (v : option (list target)) (log : list ui_event) :
  get_targets_body remote g res = Ok (v, res', log) ->
  drugs res' = drugs res /\ gene res' = gene res
  /\ threshold res' = threshold res /\ last_updated res' = last_updated res
  /\ (res' = res
      \/ (v = None /\ exists n, api_errors res = Some n
                                /\ api_errors res' = Some (n + 1))).
Proof.
  unfold get_targets_body.
  destruct (search_targets remote g) as [targets|e].
  - intros [= <- <- <-]. repeat split; auto.
  - destruct (api_errors res) as [n|] eqn:E; [|discriminate].
    intros [= <- <- <-]. repeat split; auto.
    right. split; [reflexivity|]. exists n. auto.
Qed.

Lemma get_targets_frame (g : string) (st st' : app_state)
    (v : option (list target)) (log : list ui_event) :
  get_targets remote g st = Ok (v, st', log) ->
  drugs (results st') = drugs (results st)
  /\ gene (results st') = gene (results st)
  /\ threshold (results st') = threshold (results st)
  /\ last_updated (results st') = last_updated (results st)
  /\ (results st' = results st
      \/ (v = None /\ exists n, api_errors (results st) = Some n
                                /\ api_errors (results st') = Some (n + 1))).
Proof.
  unfold get_targets.
  destruct (lru_lookup g (targets_cache st)) as [hit|].
  - intros [= <- <- <-]. simpl. repeat split; auto.
  - destruct (get_targets_body remote g (results st))
      as [[[v' res'] log']|e] eqn:E; [|discriminate].
    intros [= <- <- <-]. simpl.
    eapply get_targets_body_frame. exact E.
Qed.

(** With the counter in place [get_targets] returns. *)
Lemma get_targets_returns (g : string) (st : app_state) (n : nat) :
  api_errors (results st) = Some n ->
  exists v st' log, get_targets remote g st = Ok (v, st', log).
Proof.
  intros Hn. unfold get_targets.
  destruct (lru_lookup g (targets_cache st)) as [hit|]; [eauto|].
  unfold get_targets_body. rewrite Hn.
  destruct (search_targets remote g) as [targets|e]; eauto.
Qed.

(** *** The handler *)

(** A completed run, taken apart. *)
Lemma analyze_completed (g : string) (thr now : pyfloat) (order : list nat)
    (st : app_state) :
  run_outcome (analyze py remote g thr now order st) = Completed ->
  exists targets st1 log,
    get_targets remote g (reset st) = Ok (Some targets, st1, log)
    /\ merged_rows py remote targets thr order <> []
    /\ final_state (analyze py remote g thr now order st)
       = {| results := {| drugs := sort_values py
                                     (merged_rows py remote targets thr order);
                          gene := g;
                          threshold := thr;
                          last_updated := now;
                          api_errors := None |};
            targets_cache := targets_cache st1 |}.
Proof.
  unfold analyze, merged_rows.
  destruct (get_targets remote g (reset st)) as [[[[targets|] st1] log]|e];
    try discriminate.
  destruct targets as [|t targets]; try discriminate.
  destruct (collect_results py remote (t :: targets) thr order)
    as [[merged log2] wlogs] eqn:E.
  destruct merged as [|r merged]; try discriminate.
  intros _. exists (t :: targets), st1, log. rewrite E. simpl.
  split; [reflexivity|]. split; [discriminate|reflexivity].
Qed.

(** A run that ends without targets or without rows, taken apart. *)
Lemma analyze_failed (g : string) (thr now : pyfloat) (order : list nat)
    (st : app_state) :
  run_outcome (analyze py remote g thr now order st) = NoTargets
  \/ run_outcome (analyze py remote g thr now order st) = NoResults ->
  exists v st1 log,
    get_targets remote g (reset st) = Ok (v, st1, log)
    /\ final_state (analyze py remote g thr now order st) = st1
    /\ (v = None ->
        run_outcome (analyze py remote g thr now order st) = NoTargets).
Proof.
  unfold analyze.
  destruct (get_targets remote g (reset st)) as [[[[targets|] st1] log]|e].
  - destruct targets as [|t targets].
    + intros _. exists (Some []), st1, log. repeat split; discriminate.
    + destruct (collect_results py remote (t :: targets) thr order)
        as [[merged log2] wlogs].
      destruct merged as [|r merged].
      * intros _. exists (Some (t :: targets)), st1, log.
        repeat split; discriminate.
      * simpl. intros [H|H]; discriminate.
  - intros _. exists None, st1, log. repeat split.
  - simpl. intros [H|H]; discriminate.
Qed.

(** The counter a completed run has accumulated when it replaces the store:
    target resolution succeeded, so it still reads 0. *)
Lemma completed_run_counter (g : string) (st st1 : app_state)
    (targets : list target) (log : list ui_event) :
  get_targets remote g (reset st) = Ok (Some targets, st1, log) ->
  api_errors (results st1) = Some 0.
Proof.
  intros H. apply get_targets_frame in H.
  destruct H as (_ & _ & _ & _ & [-> | (Hv & _)]); [reflexivity|discriminate].
Qed.

(** The cache management never writes to the stored dictionary. *)
Lemma cache_management_results (now : pyfloat) (st : app_state) :
  results (cache_management now st) = results st.
Proof.
  unfold cache_management.
  destruct (float_lt _ _); reflexivity.
Qed.

(** What an execution of the script hands to the next one: the stored
    dictionary as it was without a press, and as the handler left it with
    one. *)
Lemma script_run_results (res : session_results) (pressed : bool)
    (g : string) (thr now now_end : pyfloat) (order : list nat) :
  results (script_run py remote (Some res) pressed g thr now now_end order)
  = if pressed
    then stored (analyze py remote g thr now order
                   {| results := res; targets_cache := [] |})
    else res.
Proof.
  unfold script_run, stored. destruct pressed.
  - destruct (run_outcome _); try reflexivity.
    apply cache_management_results.
  - apply cache_management_results.
Qed.

End PipelineFacts.

(** ** The claims *)

Section Claims.

Variable py : Builtins.
Variable remote : Remote.

Lemma analyze_rows (g : string) (thr now : pyfloat) (order : list nat)
    (st : app_state) :
  run_outcome (analyze py remote g thr now order st) = Completed ->
  exists targets,
    merged_rows py remote targets thr order <> []
    /\ stored (analyze py remote g thr now order st)
       = {| drugs := sort_values py (merged_rows py remote targets thr order);
            gene := g;
            threshold := thr;
            last_updated := now;
            api_errors := None |}.
Proof.
  intros H. apply analyze_completed in H.
  destruct H as (targets & st1 & log & _ & Hne & Hfs).
  exists targets. split; [exact Hne|]. unfold stored. now rewrite Hfs.
Qed.

Lemma le_no_nan (thr : pyfloat) (l : list row) :
  Forall (fun r => float_le (IC50 r) thr = true) l ->
  Forall (fun r => is_nan (IC50 r) = false) l.
Proof.
  apply Forall_impl. intros r Hr. now apply float_le_not_nan in Hr.
Qed.

(** C1: every row a completed run stores has an ic50 at most the
    threshold of that run. *)
Theorem rows_within_threshold (g : string) (thr now : pyfloat)
    (order : list nat) (st : app_state) :
  run_outcome (analyze py remote g thr now order st) = Completed ->
  threshold (stored (analyze py remote g thr now order st)) = thr
  /\ Forall (fun r => float_le (IC50 r)
                        (threshold (stored (analyze py remote g thr now order st)))
                      = true)
            (stored_rows (analyze py remote g thr now order st)).
Proof.
  intros H. apply analyze_rows in H. destruct H as (targets & _ & Hst).
  unfold stored_rows. rewrite Hst. simpl. split; [reflexivity|].
  eapply Permutation_Forall; [symmetry; apply sort_values_perm|].
  apply merged_rows_le.
Qed.

(** C2: whatever the targets and their mechanisms, an aggregation returns at
    most MAX_DRUGS // TARGET_LIMIT rows, at most TARGET_LIMIT aggregations
    are dispatched, the merge loop is left once the count reaches MAX_DRUGS,
    and the merged rows, hence the stored ones, never exceed MAX_DRUGS = 75. *)
Theorem row_count_bounded (targets : list target) (thr : pyfloat)
    (order : list nat) :
  NoDup order ->
  MAX_DRUGS = 75
  /\ (forall t, List.length (fst (fetch_drugs py remote t thr))
                <= MAX_DRUGS / TARGET_LIMIT)
  /\ List.length (dispatch py remote targets thr) <= TARGET_LIMIT
  /\ (forall total i r rest merged log,
         MAX_DRUGS <= List.length (merged ++ r) ->
         fst (merge_loop total i (r :: rest) merged log) = merged ++ r)
  /\ List.length (merged_rows py remote targets thr order) <= MAX_DRUGS
  /\ (forall g now st,
         run_outcome (analyze py remote g thr now order st) = Completed ->
         List.length (stored_rows (analyze py remote g thr now order st))
         <= MAX_DRUGS).
Proof.
  intros Hnd. split; [reflexivity|].
  split; [intros t; apply fetch_drugs_length|].
  split; [rewrite dispatch_length; apply Nat.le_min_r|].
  split; [intros; now apply merge_loop_stops|].
  split; [now apply merged_rows_length|].
  intros g now st H. apply analyze_rows in H. destruct H as (tg & _ & Hst).
  unfold stored_rows. rewrite Hst. cbn [drugs].
  rewrite (Permutation_length (sort_values_perm _ _)).
  now apply merged_rows_length.
Qed.

(** C3: the rows a completed run stores are the merged rows of that run put
    in ascending order of ic50; sorting them again, however rows of equal
    ic50 are then arranged, returns the same rows with the same sequence of
    ic50 values, and so does any other ascending rearrangement of them. *)
Theorem rows_sorted (g : string) (thr now : pyfloat) (order : list nat)
    (st : app_state) :
  run_outcome (analyze py remote g thr now order st) = Completed ->
  (exists targets st1 log,
      get_targets remote g (reset st) = Ok (Some targets, st1, log)
      /\ merged_rows py remote targets thr order <> []
      /\ Permutation (stored_rows (analyze py remote g thr now order st))
                     (merged_rows py remote targets thr order))
  /\ StronglySorted row_le (stored_rows (analyze py remote g thr now order st))
  /\ (forall py',
         Permutation
           (sort_values py' (stored_rows (analyze py remote g thr now order st)))
           (stored_rows (analyze py remote g thr now order st))
         /\ StronglySorted row_le
              (sort_values py'
                 (stored_rows (analyze py remote g thr now order st)))
         /\ map IC50
              (sort_values py'
                 (stored_rows (analyze py remote g thr now order st)))
            = map IC50 (stored_rows (analyze py remote g thr now order st)))
  /\ (forall rows',
         Permutation rows'
           (stored_rows (analyze py remote g thr now order st)) ->
         Sorted row_le rows' ->
         map IC50 rows'
         = map IC50 (stored_rows (analyze py remote g thr now order st))).
Proof.
  intros H. apply analyze_completed in H.
  destruct H as (targets & st1 & log & Hg & Hne & Hfs).
  unfold stored_rows, stored. rewrite Hfs. cbn [results drugs].
  set (merged := merged_rows py remote targets thr order) in *.
  assert (Hnan : Forall (fun r => is_nan (IC50 r) = false) merged)
    by (eapply le_no_nan, merged_rows_le).
  assert (Hnan' : Forall (fun r => is_nan (IC50 r) = false)
                    (sort_values py merged))
    by (eapply Permutation_Forall;
        [symmetry; apply sort_values_perm|exact Hnan]).
  assert (Hsorted : StronglySorted row_le (sort_values py merged))
    by now apply sort_values_sorted.
  assert (Huniq : forall rows',
             Permutation rows' (sort_values py merged) ->
             StronglySorted row_le rows' ->
             map IC50 rows' = map IC50 (sort_values py merged)).
  { intros rows' HP Hs. apply sorted_keys_unique.
    - now apply sorted_keys.
    - now apply sorted_keys.
    - now apply Permutation_map. }
  split; [|split; [exact Hsorted|split]].
  - exists targets, st1, log. split; [exact Hg|]. split; [exact Hne|].
    apply sort_values_perm.
  - intros py'.
    assert (HP : Permutation (sort_values py' (sort_values py merged))
                             (sort_values py merged))
      by apply sort_values_perm.
    assert (Hs : StronglySorted row_le
                   (sort_values py' (sort_values py merged)))
      by now apply sort_values_sorted.
    split; [exact HP|]. split; [exact Hs|]. now apply Huniq.
  - intros rows' HP Hs. apply Huniq; [exact HP|].
    apply Sorted_StronglySorted; [|exact Hs].
    intros a b c. apply row_le_trans.
Qed.

Lemma analyze_with_targets (g : string) (thr now : pyfloat) (order : list nat)
    (st st1 : app_state) (targets : list target) (log : list ui_event) :
  get_targets remote g (reset st) = Ok (Some targets, st1, log) ->
  merged_rows py remote targets thr order <> [] ->
  run_outcome (analyze py remote g thr now order st) = Completed
  /\ stored_rows (analyze py remote g thr now order st)
     = sort_values py (merged_rows py remote targets thr order).
Proof.
  intros Hg Hne. unfold stored_rows, stored, analyze. rewrite Hg.
  destruct targets as [|t targets].
  - exfalso. destruct (merged_rows py remote [] thr order) as [|r m] eqn:E;
      [now apply Hne|].
    assert (Hr : In r (merged_rows py remote [] thr order))
      by (rewrite E; now left).
    apply merged_rows_in in Hr. destruct Hr as (t & Ht & _).
    rewrite firstn_nil in Ht. exact Ht.
  - unfold merged_rows in *.
    destruct (collect_results py remote (t :: targets) thr order)
      as [[merged log2] wlogs].
    destruct merged as [|r merged]; [exfalso; now apply Hne|].
    split; reflexivity.
Qed.

Lemma merged_rows_mono (targets : list target) (t1 t2 : pyfloat)
    (order1 order2 : list nat) :
  float_lt t1 t2 = true ->
  Permutation order2 (seq 0 (Nat.min (List.length targets) TARGET_LIMIT)) ->
  incl (merged_rows py remote targets t1 order1)
       (merged_rows py remote targets t2 order2).
Proof.
  intros Hlt HP r Hr. apply merged_rows_in in Hr.
  destruct Hr as (t & Ht & Hr).
  eapply Permutation_in; [symmetry; apply merged_rows_all; exact HP|].
  apply in_concat. exists (fst (fetch_drugs py remote t t2)). split.
  - apply dispatch_in. now exists t.
  - now apply (fetch_drugs_mono py remote t t1 t2 Hlt).
Qed.

(** C4: for thresholds T1 < T2, the same gene, the same resolved targets and
    the same remote answers, every row the run at T1 produces is produced by
    the run at T2, whatever the completion orders; when the run at T1
    completes, so does the run at T2 and it stores every row of the first. *)
Theorem threshold_monotone (g : string) (t1 t2 now1 now2 : pyfloat)
    (order1 order2 : list nat) (sa sb sa' sb' : app_state)
    (targets : list target) (la lb : list ui_event) :
  float_lt t1 t2 = true ->
  get_targets remote g (reset sa) = Ok (Some targets, sa', la) ->
  get_targets remote g (reset sb) = Ok (Some targets, sb', lb) ->
  Permutation order1 (seq 0 (Nat.min (List.length targets) TARGET_LIMIT)) ->
  Permutation order2 (seq 0 (Nat.min (List.length targets) TARGET_LIMIT)) ->
  incl (merged_rows py remote targets t1 order1)
       (merged_rows py remote targets t2 order2)
  /\ (run_outcome (analyze py remote g t1 now1 order1 sa) = Completed ->
      run_outcome (analyze py remote g t2 now2 order2 sb) = Completed
      /\ incl (stored_rows (analyze py remote g t1 now1 order1 sa))
              (stored_rows (analyze py remote g t2 now2 order2 sb))).
Proof.
  intros Hlt Ha Hb HP1 HP2.
  pose proof (merged_rows_mono targets t1 t2 order1 order2 Hlt HP2) as Hincl.
  split; [exact Hincl|]. intros Hc.
  apply analyze_completed in Hc.
  destruct Hc as (targets' & st1 & log & Hg & Hne & Hfs).
  rewrite Ha in Hg. injection Hg as <- <- <-.
  assert (Hne2 : merged_rows py remote targets t2 order2 <> []).
  { destruct (merged_rows py remote targets t1 order1) as [|r m] eqn:E;
      [congruence|].
    intros E2. rewrite E2 in Hincl. apply (Hincl r). now left. }
  destruct (analyze_with_targets g t2 now2 order2 sb sb' targets lb Hb Hne2)
    as [Hout Hrows].
  split; [exact Hout|]. rewrite Hrows.
  unfold stored_rows, stored. rewrite Hfs. cbn [results drugs].
  intros r Hr.
  eapply Permutation_in; [symmetry; apply sort_values_perm|].
  apply Hincl.
  eapply Permutation_in; [apply sort_values_perm|exact Hr].
Qed.

(** What the aggregator does when the mechanism list cannot be fetched. *)
Lemma fetch_drugs_mechanism_failure (tgt : target) (thr : pyfloat) (e : string) :
  mechanism_by_target remote (target_chembl_id tgt) = Raise e ->
  fetch_drugs py remote tgt thr
  = ([], [st_error ("Mechanism API error for " ++ target_chembl_id tgt
                    ++ ": " ++ e)%string]).
Proof.
  intros H. unfold fetch_drugs, fetch_mechs, bind. now rewrite H.
Qed.

(** C5, as the code has it: the mechanism-list fetch takes at most
    2 * MAX_DRUGS = 150 mechanisms, and the aggregator then processes only
    the first MAX_DRUGS // TARGET_LIMIT = 25 of them, in returned order. *)
Theorem mechanism_fetch_cap (tgt : target) (thr : pyfloat)
    (all : list mechanism) :
  mechanism_by_target remote (target_chembl_id tgt) = Ok all ->
  fetch_mechs remote tgt = Ok (firstn (2 * MAX_DRUGS) all)
  /\ List.length (firstn (2 * MAX_DRUGS) all) <= 150
  /\ selected_mechs (firstn (2 * MAX_DRUGS) all)
     = firstn (MAX_DRUGS / TARGET_LIMIT) all
  /\ List.length (firstn (MAX_DRUGS / TARGET_LIMIT) all) <= 25
  /\ fst (fetch_drugs py remote tgt thr)
     = emitted py remote tgt thr (firstn (MAX_DRUGS / TARGET_LIMIT) all).
Proof.
  intros H. split; [|split; [|split; [|split]]].
  - unfold fetch_mechs, bind. rewrite H. reflexivity.
  - apply firstn_le_length.
  - unfold selected_mechs. rewrite firstn_firstn. reflexivity.
  - apply firstn_le_length.
  - rewrite fetch_drugs_rows, H. reflexivity.
Qed.


(** The ['Drug'] cell of an emitted row, by what the molecule record holds
    under ['pref_name']. *)
Lemma drug_name_cell (tgt : target) (thr : pyfloat) (m : mechanism)
    (drug : molecule) (r : row) :
  molecule_get remote (molecule_chembl_id m) = Ok drug ->
  process_mech py remote tgt thr m = Ok (Some r) ->
  Drug r = match pref_name drug with
           | Missing =>
               Some ("Unknown_" ++ str_take 4 (molecule_chembl_id m))%string
           | Null => None
           | Present n => Some n
           end.
Proof.
  intros Hd. unfold process_mech, bind. rewrite Hd.
  destruct (activity_filter remote _ _) as [acts|]; [|discriminate].
  destruct (firstn 1 acts) as [|a ?]; [discriminate|].
  destruct (andb _ _); [|discriminate].
  destruct (standard_value a) as [v|]; [|discriminate].
  destruct (py_float py v) as [ic50|]; [|discriminate].
  destruct (float_le ic50 thr); [|discriminate].
  intros [= <-]. unfold make_row, dict_get. cbn [Drug].
  destruct (pref_name drug); reflexivity.
Qed.

(** C10, as the code has it: a run that ends with no targets or with no
    qualifying rows leaves the stored rows, gene, threshold and timestamp as
    they were; only the error counter changes: it reads 0 after the run, or
    1 when the run ended without targets after a counted failure. *)
Theorem failed_run_keeps_dataset (g : string) (thr now : pyfloat)
    (order : list nat) (st : app_state) :
  run_outcome (analyze py remote g thr now order st) = NoTargets
  \/ run_outcome (analyze py remote g thr now order st) = NoResults ->
  drugs (stored (analyze py remote g thr now order st)) = drugs (results st)
  /\ gene (stored (analyze py remote g thr now order st)) = gene (results st)
  /\ threshold (stored (analyze py remote g thr now order st))
     = threshold (results st)
  /\ last_updated (stored (analyze py remote g thr now order st))
     = last_updated (results st)
  /\ (api_errors (stored (analyze py remote g thr now order st)) = Some 0
      \/ (api_errors (stored (analyze py remote g thr now order st)) = Some 1
          /\ run_outcome (analyze py remote g thr now order st) = NoTargets)).
Proof.
  intros H. apply analyze_failed in H.
  destruct H as (v & st1 & log & Hg & Hfs & Hnone). unfold stored. rewrite Hfs.
  apply get_targets_frame in Hg.
  destruct Hg as (Hd & Hge & Ht & Hl & Ha).
  repeat split; try assumption.
  destruct Ha as [-> | (Hv & n & Hn & Hn')].
  - now left.
  - right. simpl in Hn. injection Hn as <-. split; [exact Hn'|].
    now apply Hnone.
Qed.

End Claims.

(** C9: at the cache-management block, when the stored timestamp is more
    than 300 time units older than the clock, the memoised target lookups
    are cleared; when it is not, they are kept.  Either way the stored
    dictionary (rows, gene, threshold, timestamp) is left as it was.  The
    clock reading is one from which 300 is subtracted exactly, as is every
    reading between 300 and 2^55. *)
Theorem stale_run_clears_target_cache (a n : Z) (st : app_state) :
  last_updated (results st) = Fin a ->
  exact_float (n - Z.shiftl 300 1074) = true ->
  ((a < n - Z.shiftl 300 1074)%Z ->
   targets_cache (cache_management (Fin n) st) = [])
  /\ ((n - Z.shiftl 300 1074 <= a)%Z ->
      targets_cache (cache_management (Fin n) st) = targets_cache st)
  /\ results (cache_management (Fin n) st) = results st
  /\ drugs (results (cache_management (Fin n) st)) = drugs (results st)
  /\ gene (results (cache_management (Fin n) st)) = gene (results st)
  /\ threshold (results (cache_management (Fin n) st)) = threshold (results st)
  /\ last_updated (results (cache_management (Fin n) st))
     = last_updated (results st).
Proof.
  intros Ha Hex. unfold cache_management, of_int, float_sub.
  rewrite Ha, (round_units_exact _ Hex). cbn [float_lt].
  remember (Z.shiftl 300 1074) as w eqn:Ew. clear Ew Hex.
  destruct (Z.ltb_spec a (n - w)); cbn [targets_cache results].
  - repeat split; auto. intros; exfalso; lia.
  - repeat split; auto. intros; exfalso; lia.
Qed.

(** ** The claims on the demonstration source *)

(** C6, evaluated: the only target of the gene fails at the mechanism list;
    the aggregation returns no row and reports the failure for that target,
    the run ends with no results, and the session error counter still reads
    0 after the run. *)
Theorem mechanism_failure_not_counted :
  mechanism_by_target Demo.remote (target_chembl_id Demo.orphan)
  = Raise "503 Service Unavailable"
  /\ fetch_drugs Demo.py Demo.remote Demo.orphan (of_int 10000)
     = ([], [st_error
               "Mechanism API error for CHEMBL9999: 503 Service Unavailable"])
  /\ run_outcome (Demo.run "orphan" 10000 [0] Demo.fresh) = NoResults
  /\ worker_events (Demo.run "orphan" 10000 [0] Demo.fresh)
     = [[st_error
           "Mechanism API error for CHEMBL9999: 503 Service Unavailable"]]
  /\ api_errors (stored (Demo.run "orphan" 10000 [0] Demo.fresh)) = Some 0
  /\ get_api_errors (stored (Demo.run "orphan" 10000 [0] Demo.fresh)) = 0.
Proof. repeat split; vm_compute; reflexivity. Qed.

(** C5 as stated fails: 51 mechanisms are taken from the remote answer, more
    than twice the per-aggregation budget of 25. *)
Lemma mechanism_fetch_exceeds_twice_budget :
  ~ (forall mechs,
        fetch_mechs Demo.remote Demo.crowded = Ok mechs ->
        List.length mechs <= 2 * (MAX_DRUGS / TARGET_LIMIT)).
Proof.
  intros H.
  specialize (H (repeat (Demo.mech "CHEMBL118") 51) eq_refl).
  vm_compute in H. lia.
Qed.


(** C10 as stated fails: a run that finds no targets because the remote
    source fails changes the stored dictionary, which gains an error count. *)
Lemma failed_run_changes_store :
  run_outcome (Demo.run "down" 10000 [] Demo.aged) = NoTargets
  /\ stored (Demo.run "down" 10000 [] Demo.aged) <> results Demo.aged.
Proof.
  split; [vm_compute; reflexivity|].
  intros H. apply (f_equal api_errors) in H. vm_compute in H. discriminate.
Qed.

(** The run on the demonstration source completes and its two rows are
    within the threshold. *)
Lemma rows_within_threshold_witness :
  run_outcome (Demo.run "ptgs2" 10000 [1; 0] Demo.fresh) = Completed
  /\ threshold (stored (Demo.run "ptgs2" 10000 [1; 0] Demo.fresh))
     = of_int 10000
  /\ Forall (fun r => float_le (IC50 r)
               (threshold (stored (Demo.run "ptgs2" 10000 [1; 0] Demo.fresh)))
             = true)
       (stored_rows (Demo.run "ptgs2" 10000 [1; 0] Demo.fresh)).
Proof.
  split; [vm_compute; reflexivity|].
  apply (rows_within_threshold Demo.py Demo.remote "ptgs2" (of_int 10000)
           (of_int 2000) [1; 0] Demo.fresh).
  vm_compute; reflexivity.
Defined.

(** Two aggregations completing in reverse order. *)
Lemma row_count_bounded_witness :
  NoDup [1; 0]
  /\ List.length (merged_rows Demo.py Demo.remote [Demo.cox2; Demo.orphan]
                    (of_int 10000) [1; 0]) <= MAX_DRUGS.
Proof.
  assert (Hnd : NoDup [1; 0]).
  { constructor; [simpl; intros [H|[]]; discriminate|].
    constructor; [simpl; intros []|constructor]. }
  split; [exact Hnd|].
  apply (row_count_bounded Demo.py Demo.remote [Demo.cox2; Demo.orphan]
           (of_int 10000) [1; 0] Hnd).
Defined.

(** The stored rows of the demonstration run are in ascending order. *)
Lemma rows_sorted_witness :
  run_outcome (Demo.run "ptgs2" 10000 [1; 0] Demo.fresh) = Completed
  /\ merged_rows Demo.py Demo.remote [Demo.cox2; Demo.orphan] (of_int 10000)
       [1; 0]
     = [mk_row (Some "CELECOXIB") (of_int 900) (PhaseNum (of_int 4))
          (Some "Cyclooxygenase-2");
        mk_row None (of_int 40) PhaseNone (Some "Cyclooxygenase-2")]
  /\ stored_rows (Demo.run "ptgs2" 10000 [1; 0] Demo.fresh)
     = [mk_row None (of_int 40) PhaseNone (Some "Cyclooxygenase-2");
        mk_row (Some "CELECOXIB") (of_int 900) (PhaseNum (of_int 4))
          (Some "Cyclooxygenase-2")]
  /\ StronglySorted row_le
       (stored_rows (Demo.run "ptgs2" 10000 [1; 0] Demo.fresh)).
Proof.
  assert (Hc : run_outcome (Demo.run "ptgs2" 10000 [1; 0] Demo.fresh)
               = Completed) by (vm_compute; reflexivity).
  split; [exact Hc|].
  split; [vm_compute; reflexivity|].
  split; [vm_compute; reflexivity|].
  destruct (rows_sorted Demo.py Demo.remote "ptgs2" (of_int 10000)
              (of_int 2000) [1; 0] Demo.fresh Hc) as (_ & Hs & _).
  exact Hs.
Defined.

(** Thresholds 100 and 10000 on the same gene, from two different states and
    with two different completion orders. *)
Lemma threshold_monotone_witness :
  float_lt (of_int 100) (of_int 10000) = true
  /\ run_outcome (Demo.run "ptgs2" 100 [0; 1] Demo.fresh) = Completed
  /\ incl (stored_rows (Demo.run "ptgs2" 100 [0; 1] Demo.fresh))
          (stored_rows (Demo.run "ptgs2" 10000 [1; 0] Demo.aged)).
Proof.
  split; [vm_compute; reflexivity|].
  split; [vm_compute; reflexivity|].
  apply (threshold_monotone Demo.py Demo.remote "ptgs2" (of_int 100)
           (of_int 10000) (of_int 2000) (of_int 2000) [0; 1] [1; 0]
           Demo.fresh Demo.aged
           {| results := set_api_errors initial_results 0;
              targets_cache := [("ptgs2", Some [Demo.cox2; Demo.orphan])] |}
           {| results := set_api_errors (results Demo.aged) 0;
              targets_cache := [("ptgs2", Some [Demo.cox2; Demo.orphan])] |}
           [Demo.cox2; Demo.orphan] [] []).
  - vm_compute; reflexivity.
  - vm_compute; reflexivity.
  - vm_compute; reflexivity.
  - simpl. apply Permutation_refl.
  - simpl. apply perm_swap.
  - vm_compute; reflexivity.
Defined.

(** A target with 51 mechanisms: all are fetched, 25 are processed. *)
Lemma mechanism_fetch_cap_witness :
  mechanism_by_target Demo.remote (target_chembl_id Demo.crowded)
  = Ok (repeat (Demo.mech "CHEMBL118") 51)
  /\ fetch_mechs Demo.remote Demo.crowded
     = Ok (firstn (2 * MAX_DRUGS) (repeat (Demo.mech "CHEMBL118") 51))
  /\ List.length (fst (fetch_drugs Demo.py Demo.remote Demo.crowded
                         (of_int 10000))) = 25.
Proof.
  split; [reflexivity|].
  destruct (mechanism_fetch_cap Demo.py Demo.remote Demo.crowded
              (of_int 10000) (repeat (Demo.mech "CHEMBL118") 51) eq_refl)
    as (Hf & _ & _ & _ & Hrows).
  split; [exact Hf|]. rewrite Hrows. vm_compute; reflexivity.
Defined.


(** C8, evaluated: the molecule CHEMBL1234 comes back with a null preferred
    name, and the row emitted for it has [None] as its drug name, not
    "Unknown_CHEM"; the placeholder is used only for a record that lacks the
    key altogether. *)
Theorem null_name_not_replaced :
  molecule_get Demo.remote "CHEMBL1234" = Ok (mk_molecule Null Null)
  /\ process_mech Demo.py Demo.remote Demo.cox2 (of_int 10000)
       (Demo.mech "CHEMBL1234")
     = Ok (Some (mk_row None (of_int 40) PhaseNone
                   (Some "Cyclooxygenase-2")))
  /\ molecule_get Demo.remote "CHEMBL12349" = Ok (mk_molecule Missing Missing)
  /\ process_mech Demo.py Demo.remote Demo.cox2 (of_int 10000)
       (Demo.mech "CHEMBL12349")
     = Ok (Some (mk_row (Some "Unknown_CHEM") (of_int 55) (PhaseStr "Unknown")
                   (Some "Cyclooxygenase-2"))).
Proof. repeat split; vm_compute; reflexivity. Qed.

(** The state a completed run leaves at clock 2000, with its gene memoised,
    reaches the cache management at clock 2400, and at clock 2100. *)
Lemma stale_run_clears_target_cache_witness :
  script_run Demo.py Demo.remote None true "ptgs2" (of_int 10000)
    (of_int 2000) (of_int 2400) [1; 0]
  = cache_management (Fin (Z.shiftl 2400 1074))
      (final_state (Demo.run "ptgs2" 10000 [1; 0] Demo.fresh))
  /\ last_updated (stored (Demo.run "ptgs2" 10000 [1; 0] Demo.fresh))
     = Fin (Z.shiftl 2000 1074)
  /\ targets_cache (final_state (Demo.run "ptgs2" 10000 [1; 0] Demo.fresh))
     = [("ptgs2", Some [Demo.cox2; Demo.orphan])]
  /\ targets_cache
       (cache_management (Fin (Z.shiftl 2400 1074))
          (final_state (Demo.run "ptgs2" 10000 [1; 0] Demo.fresh))) = []
  /\ targets_cache
       (cache_management (Fin (Z.shiftl 2100 1074))
          (final_state (Demo.run "ptgs2" 10000 [1; 0] Demo.fresh)))
     = [("ptgs2", Some [Demo.cox2; Demo.orphan])].
Proof.
  assert (Ha : last_updated
                 (results
                    (final_state (Demo.run "ptgs2" 10000 [1; 0] Demo.fresh)))
               = Fin (Z.shiftl 2000 1074)) by (vm_compute; reflexivity).
  assert (Hc : targets_cache
                 (final_state (Demo.run "ptgs2" 10000 [1; 0] Demo.fresh))
               = [("ptgs2", Some [Demo.cox2; Demo.orphan])])
    by (vm_compute; reflexivity).
  split; [vm_compute; reflexivity|].
  split; [exact Ha|]. split; [exact Hc|].
  destruct (stale_run_clears_target_cache (Z.shiftl 2000 1074)
              (Z.shiftl 2400 1074)
              (final_state (Demo.run "ptgs2" 10000 [1; 0] Demo.fresh)) Ha)
    as (Hstale & _); [vm_compute; reflexivity|].
  destruct (stale_run_clears_target_cache (Z.shiftl 2000 1074)
              (Z.shiftl 2100 1074)
              (final_state (Demo.run "ptgs2" 10000 [1; 0] Demo.fresh)) Ha)
    as (_ & Hfresh & _); [vm_compute; reflexivity|].
  split.
  - apply Hstale. vm_compute. reflexivity.
  - rewrite Hfresh; [exact Hc|]. vm_compute. discriminate.
Defined.

(** A run whose target search fails remotely, over an earlier dataset. *)
Lemma failed_run_keeps_dataset_witness :
  run_outcome (Demo.run "down" 10000 [] Demo.aged) = NoTargets
  /\ drugs (stored (Demo.run "down" 10000 [] Demo.aged))
     = drugs (results Demo.aged)
  /\ api_errors (stored (Demo.run "down" 10000 [] Demo.aged)) = Some 1.
Proof.
  split; [vm_compute; reflexivity|].
  split.
  - apply (failed_run_keeps_dataset Demo.py Demo.remote "down" (of_int 10000)
             (of_int 2000) [] Demo.aged).
    left. vm_compute; reflexivity.
  - vm_compute; reflexivity.
Defined.

(** * Further properties of the script *)

(** ** The memoised target lookup *)

Lemma upper_ascii_idem (c : ascii) : upper_ascii (upper_ascii c) = upper_ascii c.
Proof.
  destruct c as [b0 b1 b2 b3 b4 b5 b6 b7].
  destruct b0, b1, b2, b3, b4, b5, b6, b7; reflexivity.
Qed.

Lemma upper_idem (s : string) : upper (upper s) = upper s.
Proof.
  induction s as [|c s IH]; simpl; [reflexivity|].
  now rewrite upper_ascii_idem, IH.
Qed.

Lemma lru_lookup_store (k : string) (v : option (list target)) (c : lru) :
  lru_lookup k (lru_store k v c) = Some v.
Proof. unfold lru_store. simpl. now rewrite String.eqb_refl. Qed.

Lemma lru_lookup_touch (k : string) (v : option (list target)) (c : lru) :
  lru_lookup k (lru_touch k v c) = Some v.
Proof. unfold lru_touch. simpl. now rewrite String.eqb_refl. Qed.

Lemma lru_lookup_none (k : string) (c : lru) :
  lru_lookup k c = None -> ~ In k (map fst c).
Proof.
  induction c as [|[k' v] c IH]; simpl; [tauto|].
  destruct (String.eqb k k') eqn:E; [discriminate|].
  apply String.eqb_neq in E. intros H [Hk|Hin]; [congruence|now apply IH].
Qed.

Lemma lru_remove_keys (k k' : string) (c : lru) :
  In k' (map fst (lru_remove k c)) -> In k' (map fst c) /\ k' <> k.
Proof.
  induction c as [|[k0 v] c IH]; simpl; [tauto|].
  destruct (String.eqb k k0) eqn:E.
  - intros H. apply IH in H. tauto.
  - apply String.eqb_neq in E. simpl. intros [<-|H].
    + split; [now left|congruence].
    + apply IH in H. tauto.
Qed.

Lemma lru_remove_nodup (k : string) (c : lru) :
  NoDup (map fst c) -> NoDup (map fst (lru_remove k c)).
Proof.
  induction c as [|[k0 v] c IH]; simpl; [auto|].
  intros H. inversion H as [|? ? Hn Hc]; subst.
  destruct (String.eqb k k0); [now apply IH|].
  simpl. constructor; [|now apply IH].
  intros Hin. apply lru_remove_keys in Hin. tauto.
Qed.

Lemma lru_remove_length (k : string) (c : lru) :
  List.length (lru_remove k c) <= List.length c.
Proof.
  induction c as [|[k0 v] c IH]; simpl; [lia|].
  destruct (String.eqb k k0); simpl; lia.
Qed.

Lemma lru_remove_hit (k : string) (v : option (list target)) (c : lru) :
  lru_lookup k c = Some v -> List.length (lru_remove k c) < List.length c.
Proof.
  induction c as [|[k0 v0] c IH]; simpl; [discriminate|].
  destruct (String.eqb k k0).
  - intros _. pose proof (lru_remove_length k c). lia.
  - intros H. apply IH in H. simpl. lia.
Qed.

Lemma firstn_in {A : Type} (n : nat) (l : list A) (x : A) :
  In x (firstn n l) -> In x l.
Proof.
  intros H. rewrite <- (firstn_skipn n l). apply in_or_app. now left.
Qed.

Lemma firstn_nodup {A : Type} (n : nat) (l : list A) :
  NoDup l -> NoDup (firstn n l).
Proof.
  intros H. revert n. induction H as [|x l Hx Hl IH]; intros [|n]; simpl;
    try constructor.
  - intros Hin. apply Hx. eapply firstn_in. exact Hin.
  - apply IH.
Qed.

Lemma lru_touch_ok (k : string) (v : option (list target)) (c : lru) :
  cache_ok c -> lru_lookup k c = Some v -> cache_ok (lru_touch k v c).
Proof.
  intros [Hlen Hnd] Hhit. unfold lru_touch. split.
  - apply lru_remove_hit in Hhit. simpl. lia.
  - simpl. constructor; [|now apply lru_remove_nodup].
    intros Hin. apply lru_remove_keys in Hin. tauto.
Qed.

Lemma lru_store_ok (k : string) (v : option (list target)) (c : lru) :
  cache_ok c -> lru_lookup k c = None -> cache_ok (lru_store k v c).
Proof.
  intros [_ Hnd] Hmiss. unfold lru_store. split.
  - apply firstn_le_length.
  - rewrite <- firstn_map. apply firstn_nodup. simpl.
    constructor; [now apply lru_lookup_none|exact Hnd].
Qed.

Section ResolverFacts.

Variable py : Builtins.
Variable remote : Remote.

(** X1: when the target search finds targets, they are the first
    2 * TARGET_LIMIT = 6 of the synonym answer if that answer is not empty,
    and otherwise the first 6 of the preferred-name answer; the list is
    never empty. *)
Theorem search_targets_bounded (g : string) (ts : list target) :
  search_targets remote g = Ok (Some ts) ->
  ts <> [] /\ List.length ts <= 2 * TARGET_LIMIT
  /\ exists syn,
       target_by_synonym remote (upper g) = Ok syn
       /\ ((syn <> [] /\ ts = firstn (2 * TARGET_LIMIT) syn)
           \/ (syn = []
               /\ exists nm,
                    target_by_pref_name remote (upper g) = Ok nm
                    /\ ts = firstn (2 * TARGET_LIMIT) nm)).
Proof.
  unfold search_targets, bind.
  destruct (target_by_synonym remote (upper g)) as [syn|e]; [|discriminate].
  change (TARGET_LIMIT * 2) with (2 * TARGET_LIMIT).
  destruct (firstn (2 * TARGET_LIMIT) syn) as [|t rest] eqn:Es.
  - assert (Hsyn : syn = []) by (destruct syn; [reflexivity|discriminate]).
    destruct (target_by_pref_name remote (upper g)) as [nm|e]; [|discriminate].
    destruct (firstn (2 * TARGET_LIMIT) nm) as [|t rest] eqn:En;
      [discriminate|].
    intros [= <-]. split; [discriminate|]. split.
    + rewrite <- En. apply firstn_le_length.
    + exists syn. split; [reflexivity|]. right. split; [exact Hsyn|].
      exists nm. split; [reflexivity|]. now rewrite En.
  - intros [= <-]. split; [discriminate|]. split.
    + rewrite <- Es. apply firstn_le_length.
    + exists syn. split; [reflexivity|]. left. split; [|now rewrite Es].
      intros ->. discriminate.
Qed.

(** X2: the search does not depend on the case of the gene symbol. *)
Theorem search_targets_case_insensitive (g1 g2 : string) :
  upper g1 = upper g2 ->
  search_targets remote g1 = search_targets remote g2
  /\ search_targets remote (upper g1) = search_targets remote g2.
Proof.
  intros H. unfold search_targets. rewrite upper_idem, H. split; reflexivity.
Qed.

Lemma get_targets_cached (g : string) (st st' : app_state)
    (v : option (list target)) (log : list ui_event) :
  get_targets remote g st = Ok (v, st', log) ->
  lru_lookup g (targets_cache st') = Some v.
Proof.
  unfold get_targets.
  destruct (lru_lookup g (targets_cache st)) as [hit|] eqn:E.
  - intros [= <- <- <-]. apply lru_lookup_touch.
  - destruct (get_targets_body remote g (results st))
      as [[[v' res'] log']|e]; [|discriminate].
    intros [= <- <- <-]. apply lru_lookup_store.
Qed.

Lemma get_targets_cache_ok (g : string) (st st' : app_state)
    (v : option (list target)) (log : list ui_event) :
  cache_ok (targets_cache st) ->
  get_targets remote g st = Ok (v, st', log) ->
  cache_ok (targets_cache st').
Proof.
  intros Hok. unfold get_targets.
  destruct (lru_lookup g (targets_cache st)) as [hit|] eqn:E.
  - intros [= <- <- <-]. now apply lru_touch_ok.
  - destruct (get_targets_body remote g (results st))
      as [[[v' res'] log']|e]; [|discriminate].
    intros [= <- <- <-]. now apply lru_store_ok.
Qed.

End ResolverFacts.

(** X4: what [get_targets] returned for a gene is returned again by the next
    call for that gene without asking the remote source: whatever the source
    would answer by then, the call raises no event and leaves the error
    counter alone.  This holds for a lookup that failed as well. *)
Theorem get_targets_memoised (remote remote' : Remote) (g : string)
    (st st' : app_state) (v : option (list target)) (log : list ui_event) :
  get_targets remote g st = Ok (v, st', log) ->
  exists st'',
    get_targets remote' g st' = Ok (v, st'', [])
    /\ results st'' = results st'
    /\ lru_lookup g (targets_cache st'') = Some v.
Proof.
  intros H. apply get_targets_cached in H.
  unfold get_targets. rewrite H. eexists. split; [reflexivity|].
  split; [reflexivity|]. apply lru_lookup_touch.
Qed.

(** The first call fails on the broken source and is memoised; the second
    call, on the recovered source, still answers that there is no target. *)
Lemma get_targets_memoised_witness :
  get_targets Demo.remote "down" (reset Demo.fresh)
  = Ok (None,
        {| results := set_api_errors initial_results 1;
           targets_cache := [("down", None)] |},
        [st_error "Target API error: connection timed out"])
  /\ search_targets Scenario.recovered "down" = Ok (Some [Demo.cox2])
  /\ exists st'',
       get_targets Scenario.recovered "down"
         {| results := set_api_errors initial_results 1;
            targets_cache := [("down", None)] |}
       = Ok (None, st'', [])
       /\ results st'' = set_api_errors initial_results 1
       /\ lru_lookup "down" (targets_cache st'') = Some None.
Proof.
  split; [vm_compute; reflexivity|].
  split; [vm_compute; reflexivity|].
  apply (get_targets_memoised Demo.remote Scenario.recovered "down"
           (reset Demo.fresh)
           {| results := set_api_errors initial_results 1;
              targets_cache := [("down", None)] |}
           None [st_error "Target API error: connection timed out"]).
  vm_compute; reflexivity.
Defined.

(** A search by synonym that finds nothing, answered by preferred name. *)
Lemma search_targets_bounded_witness :
  search_targets Demo.remote "Cyclooxygenase-2" = Ok (Some [Demo.cox2])
  /\ [Demo.cox2] <> []
  /\ List.length [Demo.cox2] <= 2 * TARGET_LIMIT.
Proof.
  split; [reflexivity|].
  destruct (search_targets_bounded Demo.remote "Cyclooxygenase-2" [Demo.cox2]
              eq_refl) as (H1 & H2 & _).
  split; [exact H1|exact H2].
Defined.

Lemma search_targets_case_insensitive_witness :
  upper "ptgs2" = upper "PtgS2"
  /\ search_targets Demo.remote "ptgs2" = search_targets Demo.remote "PtgS2".
Proof.
  split; [reflexivity|].
  apply (search_targets_case_insensitive Demo.remote "ptgs2" "PtgS2").
  reflexivity.
Defined.

(** ** The handler and the memoised lookup together *)

Section HandlerFacts.

Variable py : Builtins.
Variable remote : Remote.

Lemma search_targets_raises (g e : string) :
  target_by_synonym remote (upper g) = Raise e
  \/ (target_by_synonym remote (upper g) = Ok []
      /\ target_by_pref_name remote (upper g) = Raise e) ->
  search_targets remote g = Raise e.
Proof.
  unfold search_targets, bind. intros [H|[H1 H2]].
  - now rewrite H.
  - rewrite H1. simpl. now rewrite H2.
Qed.

Lemma search_targets_empty (g : string) :
  target_by_synonym remote (upper g) = Ok [] ->
  target_by_pref_name remote (upper g) = Ok [] ->
  search_targets remote g = Ok None.
Proof.
  unfold search_targets, bind. intros H1 H2. rewrite H1. simpl.
  now rewrite H2.
Qed.

(** Every run resolves the gene first; what it leaves depends on the answer. *)
Lemma analyze_resolves (g : string) (thr now : pyfloat) (order : list nat)
    (st : app_state) :
  exists v st1 log,
    get_targets remote g (reset st) = Ok (v, st1, log)
    /\ targets_cache (final_state (analyze py remote g thr now order st))
       = targets_cache st1
    /\ (run_outcome (analyze py remote g thr now order st) = NoTargets
        <-> no_targets v)
    /\ (forall e,
          run_outcome (analyze py remote g thr now order st) <> Crashed e)
    /\ (api_errors (stored (analyze py remote g thr now order st)) = None
        \/ stored (analyze py remote g thr now order st) = results st1).
Proof.
  destruct (get_targets_returns remote g (reset st) 0 eq_refl)
    as (v & st1 & log & Hg).
  exists v, st1, log. split; [exact Hg|].
  unfold stored, analyze, no_targets. rewrite Hg.
  destruct v as [[|t ts]|].
  - simpl. repeat split; auto; discriminate.
  - destruct (collect_results py remote (t :: ts) thr order)
      as [[merged log2] wlogs].
    destruct merged as [|r merged]; simpl.
    + repeat split; auto; try discriminate.
      intros [H|H]; discriminate.
    + repeat split; auto; try discriminate.
      intros [H|H]; discriminate.
  - simpl. repeat split; auto; discriminate.
Qed.

(** X7: the handler never ends on an uncaught exception: the counter it
    resets at line 105 is there when line 42 increments it, also when the
    stored dictionary had lost the key. *)
Theorem analyze_never_crashes (g : string) (thr now : pyfloat)
    (order : list nat) (st : app_state) (e : string) :
  run_outcome (analyze py remote g thr now order st) <> Crashed e.
Proof.
  destruct (analyze_resolves g thr now order st)
    as (v & st1 & log & _ & _ & _ & H & _).
  apply H.
Qed.

(** X8: after any run the error counter reads at most 1, so the status block
    shows its caption and never the "High API error rate" advisory. *)
Theorem error_counter_at_most_one (g : string) (thr now : pyfloat)
    (order : list nat) (st : app_state) :
  get_api_errors (stored (analyze py remote g thr now order st)) <= 1
  /\ system_status (final_state (analyze py remote g thr now order st))
     = [status_caption
          (get_api_errors (stored (analyze py remote g thr now order st)))].
Proof.
  assert (H : get_api_errors (stored (analyze py remote g thr now order st))
              <= 1).
  { destruct (analyze_resolves g thr now order st)
      as (v & st1 & log & Hg & _ & _ & _ & [Hn | Hs]).
    - unfold get_api_errors. rewrite Hn. lia.
    - rewrite Hs. apply get_targets_frame in Hg.
      destruct Hg as (_ & _ & _ & _ & [-> | (_ & n & Hn & Hn')]).
      + unfold get_api_errors, reset. cbn. lia.
      + simpl in Hn. injection Hn as <-.
        unfold get_api_errors. rewrite Hn'. cbn. lia. }
  split; [exact H|].
  unfold system_status, status_caption, stored in *.
  destruct (Nat.ltb_spec 3
              (get_api_errors
                 (results
                    (final_state (analyze py remote g thr now order st)))));
    [lia|reflexivity].
Qed.

(** X9: whatever its outcome, a run leaves the answer for its gene memoised,
    and it ended without targets exactly when that answer is empty. *)
Theorem run_memoises_gene (g : string) (thr now : pyfloat)
    (order : list nat) (st : app_state) :
  exists v,
    lru_lookup g
      (targets_cache (final_state (analyze py remote g thr now order st)))
    = Some v
    /\ (run_outcome (analyze py remote g thr now order st) = NoTargets
        <-> no_targets v).
Proof.
  destruct (analyze_resolves g thr now order st)
    as (v & st1 & log & Hg & Hc & Hn & _).
  exists v. rewrite Hc. split; [|exact Hn].
  eapply get_targets_cached. exact Hg.
Qed.

(** X5: a run keeps the cache within [CACHE_SIZE] entries, one per gene. *)
Theorem run_keeps_cache_bounded (g : string) (thr now : pyfloat)
    (order : list nat) (st : app_state) :
  cache_ok (targets_cache st) ->
  cache_ok (targets_cache (final_state (analyze py remote g thr now order st))).
Proof.
  intros Hok.
  destruct (analyze_resolves g thr now order st)
    as (v & st1 & log & Hg & Hc & _).
  rewrite Hc. eapply get_targets_cache_ok; [|exact Hg]. exact Hok.
Qed.

(** X3: when the target search fails remotely for a gene that is not
    memoised, the run ends without targets, the failure is counted once and
    reported before the "No targets" message, no aggregation is dispatched,
    and the empty answer is memoised. *)
Theorem target_failure_run (g e : string) (thr now : pyfloat)
    (order : list nat) (st : app_state) :
  lru_lookup g (targets_cache st) = None ->
  target_by_synonym remote (upper g) = Raise e
  \/ (target_by_synonym remote (upper g) = Ok []
      /\ target_by_pref_name remote (upper g) = Raise e) ->
  run_outcome (analyze py remote g thr now order st) = NoTargets
  /\ api_errors (stored (analyze py remote g thr now order st)) = Some 1
  /\ events (analyze py remote g thr now order st)
     = [st_error ("Target API error: " ++ e)%string;
        st_error ("No targets found for " ++ g
                  ++ ". Try alternative gene names.")%string]
  /\ worker_events (analyze py remote g thr now order st) = []
  /\ lru_lookup g
       (targets_cache (final_state (analyze py remote g thr now order st)))
     = Some None.
Proof.
  intros Hmiss Hfail. apply search_targets_raises in Hfail.
  unfold stored, analyze, get_targets, get_targets_body.
  cbn [reset targets_cache results]. rewrite Hmiss, Hfail.
  cbn [set_api_errors api_errors]. cbn.
  rewrite String.eqb_refl. repeat split.
Qed.

(** X10: when both searches answer with nothing, the run ends without
    targets and nothing is counted as an error; the empty answer is
    memoised. *)
Theorem unknown_gene_run (g : string) (thr now : pyfloat)
    (order : list nat) (st : app_state) :
  lru_lookup g (targets_cache st) = None ->
  target_by_synonym remote (upper g) = Ok [] ->
  target_by_pref_name remote (upper g) = Ok [] ->
  run_outcome (analyze py remote g thr now order st) = NoTargets
  /\ api_errors (stored (analyze py remote g thr now order st)) = Some 0
  /\ events (analyze py remote g thr now order st)
     = [st_error ("No targets found for " ++ g
                  ++ ". Try alternative gene names.")%string]
  /\ lru_lookup g
       (targets_cache (final_state (analyze py remote g thr now order st)))
     = Some None.
Proof.
  intros Hmiss H1 H2. pose proof (search_targets_empty g H1 H2) as Hs.
  unfold stored, analyze, get_targets, get_targets_body.
  cbn [reset targets_cache results]. rewrite Hmiss, Hs. cbn.
  rewrite String.eqb_refl. repeat split.
Qed.

(** X6: with the cache full, a lookup for a new gene evicts the entry used
    least recently: the older one, unless it was looked up in between. *)
Theorem lru_evicts_least_recent (g k1 k2 : string)
    (v1 v2 : option (list target)) (res : session_results) (n : nat) :
  k1 <> k2 -> g <> k1 -> g <> k2 ->
  api_errors res = Some n ->
  (exists v res' log,
      get_targets remote g
        {| results := res; targets_cache := [(k1, v1); (k2, v2)] |}
      = Ok (v, {| results := res'; targets_cache := [(g, v); (k1, v1)] |}, log))
  /\ get_targets remote k2
       {| results := res; targets_cache := [(k1, v1); (k2, v2)] |}
     = Ok (v2, {| results := res; targets_cache := [(k2, v2); (k1, v1)] |}, [])
  /\ (exists v res' log,
         get_targets remote g
           {| results := res; targets_cache := [(k2, v2); (k1, v1)] |}
         = Ok (v, {| results := res';
                     targets_cache := [(g, v); (k2, v2)] |}, log)).
Proof.
  intros H12 Hg1 Hg2 Hn.
  apply String.eqb_neq in Hg1, Hg2.
  assert (H21 : String.eqb k2 k1 = false)
    by (apply String.eqb_neq; congruence).
  split; [|split].
  - unfold get_targets, get_targets_body. cbn [targets_cache results lru_lookup].
    rewrite Hg1, Hg2, Hn.
    destruct (search_targets remote g) as [v|e]; eexists _, _, _; reflexivity.
  - unfold get_targets. cbn [targets_cache results lru_lookup].
    rewrite H21, String.eqb_refl. unfold lru_touch.
    cbn [lru_remove]. rewrite H21, String.eqb_refl. reflexivity.
  - unfold get_targets, get_targets_body. cbn [targets_cache results lru_lookup].
    rewrite Hg1, Hg2, Hn.
    destruct (search_targets remote g) as [v|e]; eexists _, _, _; reflexivity.
Qed.

End HandlerFacts.

(** ** One aggregation *)

Section AggregationFacts.

Variable py : Builtins.
Variable remote : Remote.

Lemma drugs_loop_log (tgt : target) (thr : pyfloat) (mechs : list mechanism) :
  forall drugs0 log,
    snd (drugs_loop py remote tgt thr mechs drugs0 log)
    = log ++ skipped py remote tgt thr mechs.
Proof.
  induction mechs as [|m mechs IH]; intros drugs0 log; simpl.
  - now rewrite app_nil_r.
  - destruct (process_mech py remote tgt thr m) as [[r|]|e]; rewrite IH.
    + reflexivity.
    + reflexivity.
    + unfold skip_warning. now rewrite <- app_assoc.
Qed.

Lemma fetch_drugs_log (tgt : target) (thr : pyfloat) (all : list mechanism) :
  mechanism_by_target remote (target_chembl_id tgt) = Ok all ->
  snd (fetch_drugs py remote tgt thr)
  = skipped py remote tgt thr (firstn (MAX_DRUGS / TARGET_LIMIT) all).
Proof.
  intros H. unfold fetch_drugs, fetch_mechs, bind, selected_mechs. rewrite H.
  rewrite drugs_loop_log, firstn_firstn. reflexivity.
Qed.

Lemma emitted_app (tgt : target) (thr : pyfloat) (l1 l2 : list mechanism) :
  emitted py remote tgt thr (l1 ++ l2)
  = emitted py remote tgt thr l1 ++ emitted py remote tgt thr l2.
Proof. unfold emitted. apply flat_map_app. Qed.

Lemma skipped_app (tgt : target) (thr : pyfloat) (l1 l2 : list mechanism) :
  skipped py remote tgt thr (l1 ++ l2)
  = skipped py remote tgt thr l1 ++ skipped py remote tgt thr l2.
Proof. unfold skipped. apply flat_map_app. Qed.

Lemma emitted_skipped_length (tgt : target) (thr : pyfloat)
    (mechs : list mechanism) :
  List.length (emitted py remote tgt thr mechs)
  + List.length (skipped py remote tgt thr mechs) <= List.length mechs.
Proof.
  induction mechs as [|m mechs IH]; simpl; [lia|].
  rewrite !length_app.
  destruct (process_mech py remote tgt thr m) as [[r|]|e]; simpl; lia.
Qed.

(** X11: a mechanism is passed over without a row and without a warning when
    the activity search finds nothing, or when its first record is not in
    nM, or carries no value; later records are not looked at, and the
    threshold plays no part. *)
Theorem unusable_activity_skipped (tgt : target) (thr : pyfloat)
    (m : mechanism) (drug : molecule) (acts : list activity) :
  molecule_get remote (molecule_chembl_id m) = Ok drug ->
  activity_filter remote (molecule_chembl_id m) (target_chembl_id tgt)
  = Ok acts ->
  acts = []
  \/ (exists a rest,
         acts = a :: rest
         /\ (standard_units a <> Some "nM"
             \/ standard_value a = None
             \/ standard_value a = Some "")) ->
  process_mech py remote tgt thr m = Ok None
  /\ emitted py remote tgt thr [m] = []
  /\ skipped py remote tgt thr [m] = [].
Proof.
  intros Hd Ha Hbad.
  assert (H : process_mech py remote tgt thr m = Ok None).
  { unfold process_mech, bind. rewrite Hd, Ha.
    destruct Hbad as [-> | (a & rest & -> & Hbad)]; [reflexivity|].
    cbn [firstn].
    destruct Hbad as [Hu | [Hv | Hv]].
    - assert (E : opt_str_eqb (standard_units a) "nM" = false).
      { destruct (standard_units a) as [u|]; [|reflexivity]. simpl.
        apply String.eqb_neq. congruence. }
      now rewrite E.
    - rewrite Hv. cbn. now rewrite andb_false_r.
    - rewrite Hv. cbn. now rewrite andb_false_r. }
  split; [exact H|]. unfold emitted, skipped. simpl. now rewrite H.
Qed.

(** X12: a mechanism whose processing raises (molecule lookup, activity
    search or the conversion of the value) costs one warning naming it and
    nothing else: the rows are those of the mechanisms before it followed by
    those of the mechanisms after it. *)
Theorem failing_mechanism_isolated (tgt : target) (thr : pyfloat)
    (all pre post : list mechanism) (m : mechanism) (e : string) :
  mechanism_by_target remote (target_chembl_id tgt) = Ok all ->
  firstn (MAX_DRUGS / TARGET_LIMIT) all = pre ++ m :: post ->
  process_mech py remote tgt thr m = Raise e ->
  fst (fetch_drugs py remote tgt thr)
  = emitted py remote tgt thr pre ++ emitted py remote tgt thr post
  /\ snd (fetch_drugs py remote tgt thr)
     = skipped py remote tgt thr pre
       ++ st_warning ("Skipped drug " ++ molecule_chembl_id m ++ ": " ++ e)
       :: skipped py remote tgt thr post.
Proof.
  intros Hall Hsplit Hm. split.
  - rewrite fetch_drugs_rows, Hall, Hsplit, emitted_app. f_equal.
    change (m :: post) with ([m] ++ post). rewrite emitted_app.
    unfold emitted at 1. simpl. now rewrite Hm.
  - rewrite (fetch_drugs_log tgt thr all Hall), Hsplit, skipped_app. f_equal.
    change (m :: post) with ([m] ++ post). rewrite skipped_app.
    unfold skipped at 1. simpl. now rewrite Hm.
Qed.

(** X13: when the mechanism list is fetched, an aggregation reports warnings
    only, and its rows and warnings together number at most
    MAX_DRUGS // TARGET_LIMIT: every visited mechanism gives one row, one
    warning, or nothing. *)
Theorem aggregation_rows_and_warnings (tgt : target) (thr : pyfloat)
    (all : list mechanism) :
  mechanism_by_target remote (target_chembl_id tgt) = Ok all ->
  List.length (fst (fetch_drugs py remote tgt thr))
  + List.length (snd (fetch_drugs py remote tgt thr))
  <= MAX_DRUGS / TARGET_LIMIT
  /\ Forall (fun ev => exists m msg,
                 In m (firstn (MAX_DRUGS / TARGET_LIMIT) all)
                 /\ process_mech py remote tgt thr m = Raise msg
                 /\ ev = skip_warning m msg)
            (snd (fetch_drugs py remote tgt thr)).
Proof.
  intros Hall. rewrite fetch_drugs_rows, (fetch_drugs_log tgt thr all Hall), Hall.
  split.
  - etransitivity; [apply emitted_skipped_length|]. apply firstn_le_length.
  - apply Forall_forall. intros ev Hev. unfold skipped in Hev.
    apply in_flat_map in Hev. destruct Hev as (m & Hm & Hev).
    destruct (process_mech py remote tgt thr m) as [[r|]|msg] eqn:E;
      simpl in Hev; try contradiction.
    destruct Hev as [<-|[]]. now exists m, msg.
Qed.

Lemma process_mech_target (tgt : target) (thr : pyfloat) (m : mechanism)
    (r : row) :
  process_mech py remote tgt thr m = Ok (Some r) ->
  Target r = target_label tgt.
Proof.
  unfold process_mech, bind.
  destruct (molecule_get remote _) as [drug|]; [|discriminate].
  destruct (activity_filter remote _ _) as [acts|]; [|discriminate].
  destruct (firstn 1 acts) as [|a ?]; [discriminate|].
  destruct (andb _ _); [|discriminate].
  destruct (standard_value a) as [v|]; [|discriminate].
  destruct (py_float py v) as [ic50|]; [|discriminate].
  destruct (float_le ic50 thr); [|discriminate].
  intros [= <-]. reflexivity.
Qed.

Lemma fetch_drugs_target (tgt : target) (thr : pyfloat) (r : row) :
  In r (fst (fetch_drugs py remote tgt thr)) -> Target r = target_label tgt.
Proof.
  rewrite fetch_drugs_rows.
  destruct (mechanism_by_target remote _) as [all|e]; [|contradiction].
  intros Hr. apply emitted_in in Hr. destruct Hr as (m & _ & Hr).
  eapply process_mech_target. exact Hr.
Qed.

End AggregationFacts.

(** ** The merge across aggregations *)

Lemma merge_loop_rows_any_count (completed : list (list row)) :
  forall total total' i i' merged log log',
    fst (merge_loop total i completed merged log)
    = fst (merge_loop total' i' completed merged log').
Proof.
  induction completed as [|r rest IH]; intros; [reflexivity|].
  rewrite !merge_loop_cons.
  destruct (Nat.leb MAX_DRUGS (List.length (merged ++ r))); [reflexivity|].
  apply IH.
Qed.

Lemma merge_loop_log_progress (total : nat) (completed : list (list row)) :
  forall i merged log,
    Forall (fun e => is_progress e = true) log ->
    Forall (fun e => is_progress e = true)
           (snd (merge_loop total i completed merged log)).
Proof.
  induction completed as [|r rest IH]; intros i merged log Hlog; [exact Hlog|].
  rewrite merge_loop_cons.
  assert (Hlog' : Forall (fun e => is_progress e = true)
                    (log ++ [progress total i (merged ++ r)])).
  { apply Forall_app. split; [exact Hlog|]. now constructor. }
  destruct (Nat.leb MAX_DRUGS (List.length (merged ++ r))); [exact Hlog'|].
  now apply IH.
Qed.

Lemma merge_loop_log_length (total b : nat) (completed : list (list row)) :
  0 < b ->
  Forall (fun r => List.length r <= b) completed ->
  forall i merged log,
    List.length merged + b * List.length completed <= MAX_DRUGS ->
    List.length (snd (merge_loop total i completed merged log))
    = List.length log + List.length completed.
Proof.
  intros Hb. induction 1 as [|r rest Hr Hrest IH]; intros i merged log Hbud.
  - simpl. lia.
  - rewrite merge_loop_cons. cbn [List.length] in *.
    destruct (Nat.leb MAX_DRUGS (List.length (merged ++ r))) eqn:E.
    + apply Nat.leb_le in E. rewrite length_app in E. cbn [snd].
      rewrite length_app. cbn [List.length].
      assert (Hz : List.length rest = 0) by nia. lia.
    + rewrite IH; [rewrite length_app; cbn [List.length]; lia|].
      rewrite length_app. nia.
Qed.

Section MergeFacts.

Variable py : Builtins.
Variable remote : Remote.

Lemma dispatch_firstn (targets : list target) (thr : pyfloat) :
  dispatch py remote (firstn TARGET_LIMIT targets) thr
  = dispatch py remote targets thr.
Proof. unfold dispatch. now rewrite firstn_firstn, Nat.min_id. Qed.

(** X14: targets past the first TARGET_LIMIT = 3 play no part: neither the
    merged rows nor the events of the aggregations depend on them. *)
Theorem extra_targets_ignored (targets : list target) (thr : pyfloat)
    (order : list nat) :
  merged_rows py remote targets thr order
  = merged_rows py remote (firstn TARGET_LIMIT targets) thr order
  /\ snd (collect_results py remote targets thr order)
     = snd (collect_results py remote (firstn TARGET_LIMIT targets) thr order)
  /\ List.length (dispatch py remote targets thr) <= TARGET_LIMIT.
Proof.
  split; [|split].
  - rewrite !merged_rows_eq, dispatch_firstn. apply merge_loop_rows_any_count.
  - unfold collect_results. rewrite dispatch_firstn.
    destruct (merge_loop _ _ _ _ _) as [m1 l1].
    destruct (merge_loop _ _ _ _ _) as [m2 l2]. reflexivity.
  - rewrite dispatch_length. apply Nat.le_min_r.
Qed.

Lemma analyze_without_rows (g : string) (thr now : pyfloat) (order : list nat)
    (st st1 : app_state) (t : target) (ts : list target) (log : list ui_event) :
  get_targets remote g (reset st) = Ok (Some (t :: ts), st1, log) ->
  merged_rows py remote (t :: ts) thr order = [] ->
  run_outcome (analyze py remote g thr now order st) = NoResults
  /\ final_state (analyze py remote g thr now order st) = st1.
Proof.
  intros Hg He. unfold analyze. rewrite Hg. unfold merged_rows in He.
  destruct (collect_results py remote (t :: ts) thr order)
    as [[merged log2] wlogs].
  simpl in He. subst merged. split; reflexivity.
Qed.

(** X15: when every dispatched aggregation completes once, nothing found is
    left out: each row of each of the first three targets is stored, and the
    stored table has exactly as many rows as the aggregations returned. *)
Theorem no_aggregation_dropped (g : string) (thr now : pyfloat)
    (order : list nat) (st st1 : app_state) (targets : list target)
    (log : list ui_event) (t : target) (r : row) :
  get_targets remote g (reset st) = Ok (Some targets, st1, log) ->
  Permutation order (seq 0 (Nat.min (List.length targets) TARGET_LIMIT)) ->
  In t (firstn TARGET_LIMIT targets) ->
  In r (fst (fetch_drugs py remote t thr)) ->
  run_outcome (analyze py remote g thr now order st) = Completed
  /\ In r (stored_rows (analyze py remote g thr now order st))
  /\ Permutation (stored_rows (analyze py remote g thr now order st))
       (List.concat (map fst (dispatch py remote targets thr))).
Proof.
  intros Hg HP Ht Hr.
  pose proof (merged_rows_all py remote targets thr order HP) as Hall.
  assert (Hin : In r (merged_rows py remote targets thr order)).
  { eapply Permutation_in; [symmetry; exact Hall|].
    apply in_concat. exists (fst (fetch_drugs py remote t thr)).
    split; [|exact Hr]. apply dispatch_in. now exists t. }
  assert (Hne : merged_rows py remote targets thr order <> []).
  { intros E. rewrite E in Hin. exact Hin. }
  destruct (analyze_with_targets py remote g thr now order st st1 targets log
              Hg Hne) as [Hout Hrows].
  split; [exact Hout|]. rewrite Hrows. split.
  - eapply Permutation_in; [symmetry; apply sort_values_perm|exact Hin].
  - rewrite sort_values_perm. exact Hall.
Qed.

(** X16: the order in which the aggregations complete does not show in the
    result: the outcome is the same, the stored rows are the same up to
    their order, and the stored sequence of ic50 values is the same. *)
Theorem completion_order_irrelevant (g : string) (thr now : pyfloat)
    (order1 order2 : list nat) (st st1 : app_state) (targets : list target)
    (log : list ui_event) :
  get_targets remote g (reset st) = Ok (Some targets, st1, log) ->
  Permutation order1 (seq 0 (Nat.min (List.length targets) TARGET_LIMIT)) ->
  Permutation order2 (seq 0 (Nat.min (List.length targets) TARGET_LIMIT)) ->
  run_outcome (analyze py remote g thr now order1 st)
  = run_outcome (analyze py remote g thr now order2 st)
  /\ Permutation (stored_rows (analyze py remote g thr now order1 st))
                 (stored_rows (analyze py remote g thr now order2 st))
  /\ map IC50 (stored_rows (analyze py remote g thr now order1 st))
     = map IC50 (stored_rows (analyze py remote g thr now order2 st)).
Proof.
  intros Hg HP1 HP2.
  assert (HP : Permutation (merged_rows py remote targets thr order1)
                           (merged_rows py remote targets thr order2)).
  { rewrite (merged_rows_all py remote targets thr order1 HP1).
    symmetry. now apply merged_rows_all. }
  destruct targets as [|t ts].
  - unfold stored_rows, stored, analyze. rewrite Hg. simpl.
    split; [reflexivity|]. split; reflexivity.
  - destruct (merged_rows py remote (t :: ts) thr order1) as [|r1 m1] eqn:E1.
    + apply Permutation_nil in HP.
      destruct (analyze_without_rows g thr now order1 st st1 t ts log Hg E1)
        as [Ho1 Hf1].
      destruct (analyze_without_rows g thr now order2 st st1 t ts log Hg HP)
        as [Ho2 Hf2].
      unfold stored_rows, stored. rewrite Ho1, Ho2, Hf1, Hf2.
      split; [reflexivity|]. split; reflexivity.
    + assert (Hne1 : merged_rows py remote (t :: ts) thr order1 <> [])
        by (rewrite E1; discriminate).
      assert (Hne2 : merged_rows py remote (t :: ts) thr order2 <> []).
      { intros E2. rewrite E2 in HP. apply Permutation_sym in HP.
        apply Permutation_nil in HP. discriminate. }
      destruct (analyze_with_targets py remote g thr now order1 st st1
                  (t :: ts) log Hg Hne1) as [Ho1 Hr1].
      destruct (analyze_with_targets py remote g thr now order2 st st1
                  (t :: ts) log Hg Hne2) as [Ho2 Hr2].
      rewrite Ho1, Ho2, Hr1, Hr2, E1.
      assert (HPs : Permutation (sort_values py (r1 :: m1))
                      (sort_values py (merged_rows py remote (t :: ts) thr order2))).
      { rewrite !sort_values_perm. exact HP. }
      split; [reflexivity|]. split; [exact HPs|].
      apply sorted_keys_unique.
      * apply sorted_keys, sort_values_sorted.
        rewrite <- E1. eapply le_no_nan, merged_rows_le.
      * apply sorted_keys, sort_values_sorted.
        eapply le_no_nan, merged_rows_le.
      * now apply Permutation_map.
Qed.

(** X17: every stored row of a completed run was returned for one of the
    first three resolved targets, and its Target cell is what
    [target.get('pref_name', id)] gives for that target: the preferred name,
    [None] when the name is null, the id when the record lacks the key. *)
Theorem stored_rows_provenance (g : string) (thr now : pyfloat)
    (order : list nat) (st : app_state) :
  run_outcome (analyze py remote g thr now order st) = Completed ->
  exists targets st1 log,
    get_targets remote g (reset st) = Ok (Some targets, st1, log)
    /\ Forall (fun r => exists t,
                   In t (firstn TARGET_LIMIT targets)
                   /\ In r (fst (fetch_drugs py remote t thr))
                   /\ Target r = target_label t)
              (stored_rows (analyze py remote g thr now order st)).
Proof.
  intros H. apply analyze_completed in H.
  destruct H as (targets & st1 & log & Hg & _ & Hfs).
  exists targets, st1, log. split; [exact Hg|].
  unfold stored_rows, stored. rewrite Hfs. cbn [results drugs].
  apply Forall_forall. intros r Hr.
  apply (Permutation_in _ (sort_values_perm _ _)) in Hr.
  apply merged_rows_in in Hr. destruct Hr as (t & Ht & Hr).
  exists t. split; [exact Ht|]. split; [exact Hr|].
  eapply fetch_drugs_target. exact Hr.
Qed.

(** X18: when every dispatched aggregation completes once, the loop writes
    one progress line per dispatched target and nothing else: the exit at
    the cap can only be taken after the last one. *)
Theorem one_progress_line_per_target (targets : list target) (thr : pyfloat)
    (order : list nat) :
  Permutation order (seq 0 (Nat.min (List.length targets) TARGET_LIMIT)) ->
  List.length (snd (fst (collect_results py remote targets thr order)))
  = Nat.min (List.length targets) TARGET_LIMIT
  /\ Forall (fun e => is_progress e = true)
            (snd (fst (collect_results py remote targets thr order))).
Proof.
  intros HP.
  assert (E : snd (fst (collect_results py remote targets thr order))
              = snd (merge_loop (Nat.min (List.length targets) TARGET_LIMIT) 0
                       (as_completed order
                          (map fst (dispatch py remote targets thr))) [] [])).
  { unfold collect_results. destruct (merge_loop _ _ _ _ _). reflexivity. }
  rewrite E. split; [|apply merge_loop_log_progress; constructor].
  assert (HP' : Permutation
                  (as_completed order (map fst (dispatch py remote targets thr)))
                  (map fst (dispatch py remote targets thr))).
  { apply as_completed_perm. now rewrite length_map, dispatch_length. }
  assert (Hlen : List.length
                   (as_completed order
                      (map fst (dispatch py remote targets thr)))
                 = Nat.min (List.length targets) TARGET_LIMIT).
  { now rewrite (Permutation_length HP'), length_map, dispatch_length. }
  rewrite (merge_loop_log_length _ (MAX_DRUGS / TARGET_LIMIT)).
  - simpl. exact Hlen.
  - change (MAX_DRUGS / TARGET_LIMIT) with 25. lia.
  - apply completed_budget.
  - rewrite Hlen.
    pose proof (Nat.le_min_r (List.length targets) TARGET_LIMIT) as Hmin.
    change (MAX_DRUGS / TARGET_LIMIT) with 25. change MAX_DRUGS with 75.
    change TARGET_LIMIT with 3 in Hmin |- *. simpl List.length. lia.
Qed.

(** X19: the lookups memoised by a completed run survive the cache
    management as long as the clock has not passed the run's timestamp by
    more than 300 time units (for a clock reading from which 300 is
    subtracted exactly). *)
Theorem fresh_run_keeps_cache (g : string) (thr : pyfloat) (n1 n2 : Z)
    (order : list nat) (st : app_state) :
  run_outcome (analyze py remote g thr (Fin n1) order st) = Completed ->
  exact_float (n2 - Z.shiftl 300 1074) = true ->
  (n2 - Z.shiftl 300 1074 <= n1)%Z ->
  cache_management (Fin n2)
    (final_state (analyze py remote g thr (Fin n1) order st))
  = final_state (analyze py remote g thr (Fin n1) order st)
  /\ exists v,
       lru_lookup g
         (targets_cache
            (cache_management (Fin n2)
               (final_state (analyze py remote g thr (Fin n1) order st))))
       = Some v.
Proof.
  intros Hc Hex Hle.
  assert (E : cache_management (Fin n2)
                (final_state (analyze py remote g thr (Fin n1) order st))
              = final_state (analyze py remote g thr (Fin n1) order st)).
  { pose proof (analyze_rows py remote g thr (Fin n1) order st Hc) as Hr.
    destruct Hr as (targets & _ & Hst). unfold stored in Hst.
    unfold cache_management. rewrite Hst. cbn [last_updated].
    unfold of_int, float_sub. rewrite (round_units_exact _ Hex).
    cbn [float_lt].
    destruct (Z.ltb_spec n1 (n2 - Z.shiftl 300 1074)); [lia|reflexivity]. }
  split; [exact E|]. rewrite E.
  destruct (analyze_resolves py remote g thr (Fin n1) order st)
    as (v & st1 & log & Hg & Hcache & _).
  exists v. rewrite Hcache. eapply get_targets_cached. exact Hg.
Qed.

End MergeFacts.

(** ** The further properties on the demonstration source *)

(** The target search of the demonstration source times out for "down". *)
Lemma target_failure_run_witness :
  lru_lookup "down" (targets_cache Demo.fresh) = None
  /\ target_by_synonym Demo.remote (upper "down")
     = Raise "connection timed out"
  /\ run_outcome (Demo.run "down" 10000 [] Demo.fresh) = NoTargets
  /\ api_errors (stored (Demo.run "down" 10000 [] Demo.fresh)) = Some 1.
Proof.
  split; [reflexivity|]. split; [reflexivity|].
  destruct (target_failure_run Demo.py Demo.remote "down"
              "connection timed out" (of_int 10000) (of_int 2000) []
              Demo.fresh eq_refl (or_introl eq_refl))
    as (H1 & H2 & _).
  split; [exact H1|exact H2].
Defined.

(** A gene the demonstration source does not know. *)
Lemma unknown_gene_run_witness :
  lru_lookup "notarealgene" (targets_cache Demo.aged) = None
  /\ run_outcome (Demo.run "notarealgene" 10000 [] Demo.aged) = NoTargets
  /\ api_errors (stored (Demo.run "notarealgene" 10000 [] Demo.aged)) = Some 0.
Proof.
  split; [reflexivity|].
  destruct (unknown_gene_run Demo.py Demo.remote "notarealgene"
              (of_int 10000) (of_int 2000) [] Demo.aged
              eq_refl eq_refl eq_refl)
    as (H1 & H2 & _).
  split; [exact H1|exact H2].
Defined.

(** A run for a third gene over a full cache. *)
Lemma run_keeps_cache_bounded_witness :
  cache_ok (targets_cache Scenario.full)
  /\ cache_ok (targets_cache
                 (final_state (Demo.run "down" 10000 [] Scenario.full))).
Proof.
  assert (Hok : cache_ok (targets_cache Scenario.full)).
  { split; [apply Nat.le_refl|]. simpl.
    constructor; [simpl; intros [H|[]]; discriminate|].
    constructor; [simpl; intros []|constructor]. }
  split; [exact Hok|].
  apply (run_keeps_cache_bounded Demo.py Demo.remote "down" (of_int 10000)
           (of_int 2000) [] Scenario.full Hok).
Defined.

(** The full cache of the scenario: "ORPHAN" is evicted by a new gene, unless
    it is looked up first, in which case "PTGS2" is. *)
Lemma lru_evicts_least_recent_witness :
  "PTGS2" <> "ORPHAN"
  /\ get_targets Demo.remote "ORPHAN" Scenario.full
     = Ok (Some [Demo.orphan],
           {| results := initial_results;
              targets_cache := [("ORPHAN", Some [Demo.orphan]);
                                ("PTGS2", Some [Demo.cox2; Demo.orphan])] |},
           []).
Proof.
  assert (H12 : "PTGS2" <> "ORPHAN") by discriminate.
  assert (Hg1 : "nothing" <> "PTGS2") by discriminate.
  assert (Hg2 : "nothing" <> "ORPHAN") by discriminate.
  split; [exact H12|].
  destruct (lru_evicts_least_recent Demo.remote "nothing" "PTGS2" "ORPHAN"
              (Some [Demo.cox2; Demo.orphan]) (Some [Demo.orphan])
              initial_results 0 H12 Hg1 Hg2 eq_refl)
    as (_ & Hhit & _).
  exact Hhit.
Defined.

(** Ibuprofen's only record in the demonstration source is in uM. *)
Lemma unusable_activity_skipped_witness :
  activity_filter Demo.remote "CHEMBL521" (target_chembl_id Demo.cox2)
  = Ok [mk_activity (Some "12") (Some "uM")]
  /\ process_mech Demo.py Demo.remote Demo.cox2 (of_int 10000)
       (Demo.mech "CHEMBL521") = Ok None.
Proof.
  split; [reflexivity|].
  refine (proj1 (unusable_activity_skipped Demo.py Demo.remote Demo.cox2
                   (of_int 10000) (Demo.mech "CHEMBL521")
                   (mk_molecule (Present "IBUPROFEN") (Present (of_int 4)))
                   [mk_activity (Some "12") (Some "uM")]
                   eq_refl eq_refl _)).
  right. exists (mk_activity (Some "12") (Some "uM")), [].
  split; [reflexivity|]. left. simpl. discriminate.
Defined.

(** The fifth mechanism of the demonstration target has no molecule record. *)
Lemma failing_mechanism_isolated_witness :
  process_mech Demo.py Demo.remote Demo.cox2 (of_int 10000)
    (Demo.mech "CHEMBL404") = Raise "404 Not Found"
  /\ List.length (fst (fetch_drugs Demo.py Demo.remote Demo.cox2
                         (of_int 10000))) = 2
  /\ snd (fetch_drugs Demo.py Demo.remote Demo.cox2 (of_int 10000))
     = [st_warning "Skipped drug CHEMBL404: 404 Not Found"].
Proof.
  split; [vm_compute; reflexivity|].
  destruct (failing_mechanism_isolated Demo.py Demo.remote Demo.cox2
              (of_int 10000)
              [Demo.mech "CHEMBL118"; Demo.mech "CHEMBL1234";
               Demo.mech "CHEMBL6"; Demo.mech "CHEMBL521";
               Demo.mech "CHEMBL404"]
              [Demo.mech "CHEMBL118"; Demo.mech "CHEMBL1234";
               Demo.mech "CHEMBL6"; Demo.mech "CHEMBL521"]
              [] (Demo.mech "CHEMBL404") "404 Not Found"
              eq_refl eq_refl)
    as (Hrows & Hlog); [vm_compute; reflexivity|].
  split.
  - rewrite Hrows. vm_compute; reflexivity.
  - rewrite Hlog. vm_compute; reflexivity.
Defined.

(** Five mechanisms: two rows and one warning. *)
Lemma aggregation_rows_and_warnings_witness :
  mechanism_by_target Demo.remote (target_chembl_id Demo.cox2)
  = Ok [Demo.mech "CHEMBL118"; Demo.mech "CHEMBL1234"; Demo.mech "CHEMBL6";
        Demo.mech "CHEMBL521"; Demo.mech "CHEMBL404"]
  /\ List.length (fst (fetch_drugs Demo.py Demo.remote Demo.cox2
                         (of_int 10000)))
     + List.length (snd (fetch_drugs Demo.py Demo.remote Demo.cox2
                           (of_int 10000)))
     <= MAX_DRUGS / TARGET_LIMIT.
Proof.
  split; [reflexivity|].
  refine (proj1 (aggregation_rows_and_warnings Demo.py Demo.remote Demo.cox2
                   (of_int 10000) _ eq_refl)).
Defined.

(** Celecoxib is found for the first target, so it is stored. *)
Lemma no_aggregation_dropped_witness :
  In Demo.cox2 (firstn TARGET_LIMIT [Demo.cox2; Demo.orphan])
  /\ run_outcome (Demo.run "ptgs2" 10000 [1; 0] Demo.fresh) = Completed
  /\ In (mk_row (Some "CELECOXIB") (of_int 900) (PhaseNum (of_int 4))
           (Some "Cyclooxygenase-2"))
        (stored_rows (Demo.run "ptgs2" 10000 [1; 0] Demo.fresh)).
Proof.
  assert (Ht : In Demo.cox2 (firstn TARGET_LIMIT [Demo.cox2; Demo.orphan]))
    by (simpl; now left).
  split; [exact Ht|].
  destruct (no_aggregation_dropped Demo.py Demo.remote "ptgs2" (of_int 10000)
              (of_int 2000) [1; 0] Demo.fresh
              {| results := set_api_errors initial_results 0;
                 targets_cache := [("ptgs2", Some [Demo.cox2; Demo.orphan])] |}
              [Demo.cox2; Demo.orphan] [] Demo.cox2
              (mk_row (Some "CELECOXIB") (of_int 900) (PhaseNum (of_int 4))
                 (Some "Cyclooxygenase-2")))
    as (H1 & H2 & _).
  - vm_compute; reflexivity.
  - simpl. apply perm_swap.
  - exact Ht.
  - vm_compute. now left.
  - split; [exact H1|exact H2].
Defined.

(** The two completion orders of the two demonstration targets. *)
Lemma completion_order_irrelevant_witness :
  Permutation [1; 0] (seq 0 (Nat.min 2 TARGET_LIMIT))
  /\ run_outcome (Demo.run "ptgs2" 10000 [0; 1] Demo.fresh)
     = run_outcome (Demo.run "ptgs2" 10000 [1; 0] Demo.fresh)
  /\ map IC50 (stored_rows (Demo.run "ptgs2" 10000 [0; 1] Demo.fresh))
     = map IC50 (stored_rows (Demo.run "ptgs2" 10000 [1; 0] Demo.fresh)).
Proof.
  assert (HP2 : Permutation [1; 0] (seq 0 (Nat.min 2 TARGET_LIMIT)))
    by (simpl; apply perm_swap).
  split; [exact HP2|].
  destruct (completion_order_irrelevant Demo.py Demo.remote "ptgs2"
              (of_int 10000) (of_int 2000) [0; 1] [1; 0] Demo.fresh
              {| results := set_api_errors initial_results 0;
                 targets_cache := [("ptgs2", Some [Demo.cox2; Demo.orphan])] |}
              [Demo.cox2; Demo.orphan] [])
    as (H1 & _ & H3).
  - vm_compute; reflexivity.
  - simpl. apply Permutation_refl.
  - exact HP2.
  - split; [exact H1|exact H3].
Defined.

(** Both stored rows of the demonstration run come from the first target. *)
Lemma stored_rows_provenance_witness :
  run_outcome (Demo.run "ptgs2" 10000 [1; 0] Demo.fresh) = Completed
  /\ exists targets st1 log,
       get_targets Demo.remote "ptgs2" (reset Demo.fresh)
       = Ok (Some targets, st1, log)
       /\ Forall (fun r => exists t,
                      In t (firstn TARGET_LIMIT targets)
                      /\ In r (fst (fetch_drugs Demo.py Demo.remote t
                                      (of_int 10000)))
                      /\ Target r = target_label t)
                 (stored_rows (Demo.run "ptgs2" 10000 [1; 0] Demo.fresh)).
Proof.
  split; [vm_compute; reflexivity|].
  apply (stored_rows_provenance Demo.py Demo.remote "ptgs2" (of_int 10000)
           (of_int 2000) [1; 0] Demo.fresh).
  vm_compute; reflexivity.
Defined.

(** Two dispatched targets, two progress lines. *)
Lemma one_progress_line_per_target_witness :
  Permutation [1; 0] (seq 0 (Nat.min 2 TARGET_LIMIT))
  /\ List.length (snd (fst (collect_results Demo.py Demo.remote
                              [Demo.cox2; Demo.orphan] (of_int 10000) [1; 0])))
     = 2.
Proof.
  assert (HP : Permutation [1; 0] (seq 0 (Nat.min 2 TARGET_LIMIT)))
    by (simpl; apply perm_swap).
  split; [exact HP|].
  refine (proj1 (one_progress_line_per_target Demo.py Demo.remote
                   [Demo.cox2; Demo.orphan] (of_int 10000) [1; 0] HP)).
Defined.

(** One hundred time units after the demonstration run. *)
Lemma fresh_run_keeps_cache_witness :
  run_outcome (Demo.run "ptgs2" 10000 [1; 0] Demo.fresh) = Completed
  /\ (Z.shiftl 2100 1074 - Z.shiftl 300 1074 <= Z.shiftl 2000 1074)%Z
  /\ cache_management (of_int 2100)
       (final_state (Demo.run "ptgs2" 10000 [1; 0] Demo.fresh))
     = final_state (Demo.run "ptgs2" 10000 [1; 0] Demo.fresh).
Proof.
  assert (Hc : run_outcome (Demo.run "ptgs2" 10000 [1; 0] Demo.fresh)
               = Completed) by (vm_compute; reflexivity).
  assert (Hle : (Z.shiftl 2100 1074 - Z.shiftl 300 1074
                 <= Z.shiftl 2000 1074)%Z)
    by (vm_compute; discriminate).
  split; [exact Hc|]. split; [exact Hle|].
  refine (proj1 (fresh_run_keeps_cache Demo.py Demo.remote "ptgs2"
                   (of_int 10000) (Z.shiftl 2000 1074) (Z.shiftl 2100 1074)
                   [1; 0] Demo.fresh Hc _ Hle)).
  vm_compute; reflexivity.
Defined.

(** ** Aggregations that all fail *)

Section FailingAggregations.

Variable py : Builtins.
Variable remote : Remote.

Lemma analyze_worker_events (g : string) (thr now : pyfloat) (order : list nat)
    (st st1 : app_state) (t : target) (ts : list target) (log : list ui_event) :
  get_targets remote g (reset st) = Ok (Some (t :: ts), st1, log) ->
  worker_events (analyze py remote g thr now order st)
  = map snd (dispatch py remote (t :: ts) thr).
Proof.
  intros Hg. unfold analyze. rewrite Hg. unfold collect_results.
  destruct (merge_loop _ _ _ _ _) as [merged log2].
  destruct merged; reflexivity.
Qed.

(** X20: when the mechanism list cannot be fetched for any of the dispatched
    targets, the run ends without results, the stored rows stay as they
    were, and each dispatched aggregation has reported exactly one error,
    naming its target. *)
Theorem all_mechanism_fetches_fail (g : string) (thr now : pyfloat)
    (order : list nat) (st st1 : app_state) (t : target) (ts : list target)
    (log : list ui_event) :
  get_targets remote g (reset st) = Ok (Some (t :: ts), st1, log) ->
  (forall t', In t' (firstn TARGET_LIMIT (t :: ts)) ->
              exists e, mechanism_by_target remote (target_chembl_id t')
                        = Raise e) ->
  run_outcome (analyze py remote g thr now order st) = NoResults
  /\ stored_rows (analyze py remote g thr now order st) = drugs (results st)
  /\ Forall2 (fun t' evs =>
                exists e,
                  mechanism_by_target remote (target_chembl_id t') = Raise e
                  /\ evs = [st_error ("Mechanism API error for "
                                      ++ target_chembl_id t' ++ ": " ++ e)])
       (firstn TARGET_LIMIT (t :: ts))
       (worker_events (analyze py remote g thr now order st)).
Proof.
  intros Hg Hfail.
  assert (He : merged_rows py remote (t :: ts) thr order = []).
  { destruct (merged_rows py remote (t :: ts) thr order) as [|r m] eqn:E;
      [reflexivity|].
    assert (Hr : In r (merged_rows py remote (t :: ts) thr order))
      by (rewrite E; now left).
    apply merged_rows_in in Hr. destruct Hr as (t' & Ht' & Hr).
    destruct (Hfail t' Ht') as (e & Hraise).
    rewrite fetch_drugs_rows, Hraise in Hr. contradiction. }
  destruct (analyze_without_rows py remote g thr now order st st1 t ts log
              Hg He) as [Hout Hfs].
  split; [exact Hout|]. split.
  - unfold stored_rows, stored. rewrite Hfs.
    apply get_targets_frame in Hg. destruct Hg as (Hd & _). exact Hd.
  - rewrite (analyze_worker_events g thr now order st st1 t ts log Hg).
    unfold dispatch. rewrite map_map.
    revert Hfail. generalize (firstn TARGET_LIMIT (t :: ts)).
    intros l. induction l as [|t' l IH]; intros Hfail; simpl; constructor.
    + destruct (Hfail t' (or_introl eq_refl)) as (e & Hraise).
      exists e. split; [exact Hraise|].
      unfold fetch_drugs, fetch_mechs, bind. now rewrite Hraise.
    + apply IH. intros t'' Ht''. apply Hfail. now right.
Qed.

End FailingAggregations.

(** The gene "orphan" resolves to one target, whose mechanism list is down. *)
Lemma all_mechanism_fetches_fail_witness :
  get_targets Demo.remote "orphan" (reset Demo.aged)
  = Ok (Some [Demo.orphan],
        {| results := set_api_errors (results Demo.aged) 0;
           targets_cache := [("orphan", Some [Demo.orphan])] |}, [])
  /\ run_outcome (Demo.run "orphan" 10000 [0] Demo.aged) = NoResults
  /\ stored_rows (Demo.run "orphan" 10000 [0] Demo.aged)
     = drugs (results Demo.aged).
Proof.
  assert (Hg : get_targets Demo.remote "orphan" (reset Demo.aged)
               = Ok (Some [Demo.orphan],
                     {| results := set_api_errors (results Demo.aged) 0;
                        targets_cache :=
                          [("orphan", Some [Demo.orphan])] |}, []))
    by (vm_compute; reflexivity).
  split; [exact Hg|].
  destruct (all_mechanism_fetches_fail Demo.py Demo.remote "orphan"
              (of_int 10000) (of_int 2000) [0] Demo.aged _ Demo.orphan [] []
              Hg) as (H1 & H2 & _).
  - intros t' [<-|[]]. exists "503 Service Unavailable". reflexivity.
  - split; [exact H1|exact H2].
Defined.
